(** * Registration pipeline of the "Play & Tweet" backend

    A shallow embedding of
    - [backend/src/controllers/user.controller.js] ([registerUser]),
    - the Cloudinary helper [uploadOnCloudinary] (both copies found in the
      repository),
    - the Mongoose user model (schema options, the [pre('save')] hook,
      [isPasswordCorrect] and the token methods),
    - the [ApiResponse], [apiError] and [asyncHandler] utilities as given in
      [backend/notes.md],
    together with the properties the specification states about them.

    Effects (repository, file system, remote upload, console) are threaded
    through an explicit state-and-exception monad over a [world]. *)

From Stdlib Require Import ZArith NArith String Ascii List Bool Lia.
From stdpp Require Import base gmap strings list fin_maps.
Import ListNotations.
Local Open Scope string_scope.

(** ** JavaScript strings

    A JavaScript string is a sequence of UTF-16 code units. [trim] removes
    the code units of ECMAScript's [WhiteSpace] and [LineTerminator]
    productions from both ends. [toLowerCase] follows the Unicode case
    tables, which are not part of the repository: it is an interface. *)

Module JsString.

Abbreviation jsstring := (list N).

(** A string literal of the source, as code units. *)
Definition js (s : string) : jsstring :=
  map N_of_ascii (list_ascii_of_string s).

(** WhiteSpace: TAB, VT, FF, ZWNBSP and the space separators (category Zs). *)
Definition white_space : list N :=
  [ 0x0009; 0x000B; 0x000C; 0xFEFF;
    0x0020; 0x00A0; 0x1680;
    0x2000; 0x2001; 0x2002; 0x2003; 0x2004; 0x2005; 0x2006; 0x2007; 0x2008;
    0x2009; 0x200A; 0x202F; 0x205F; 0x3000 ]%N.

(** LineTerminator: LF, CR, LS, PS. *)
Definition line_terminator : list N :=
  [ 0x000A; 0x000D; 0x2028; 0x2029 ]%N.

Definition is_whitespace (c : N) : bool :=
  existsb (N.eqb c) (white_space ++ line_terminator).

Fixpoint trimStart (s : jsstring) : jsstring :=
  match s with
  | [] => []
  | c :: r => if is_whitespace c then trimStart r else s
  end.

Fixpoint trimEnd (s : jsstring) : jsstring :=
  match s with
  | [] => []
  | c :: r =>
      match trimEnd r with
      | [] => if is_whitespace c then [] else [c]
      | r' => c :: r'
      end
  end.

Definition trim (s : jsstring) : jsstring := trimEnd (trimStart s).

(** [a === b] on strings. *)
Definition jseqb (a b : jsstring) : bool := bool_decide (a = b).

(** JavaScript truthiness of a possibly-undefined string: [undefined] and the
    empty string are falsy. *)
Definition truthy (v : option jsstring) : bool :=
  match v with
  | Some (_ :: _) => true
  | _ => false
  end.

(** [String.prototype.toLowerCase]. *)
Class Unicode := {
  toLowerCase : jsstring -> jsstring
}.

(** What the proofs use of the Unicode lower-case conversion. It is
    idempotent: the result of a case mapping has no further lower-case
    mapping. It commutes with [trim]: no white space character has a case
    mapping, none is the result of one, and the one context rule (final
    sigma) looks for cased letters, which white space at either end is not.
    And it never empties a string. Only statements that name what the
    setters [trim] and [lowercase] of the schema store depend on these. *)
Class UnicodeLaws (U : Unicode) : Prop := {
  toLowerCase_idem : forall s, toLowerCase (toLowerCase s) = toLowerCase s;
  trim_lower : forall s, trim (toLowerCase s) = toLowerCase (trim s);
  toLowerCase_empty : forall s, toLowerCase s = [] -> s = []
}.

(** The conversion on the code units below [0x100] (Basic Latin and Latin-1:
    [A-Z], [U+00C0-U+00D6] and [U+00D8-U+00DE] are the capital letters there,
    each 32 below its small letter); other code units are left as they are. It
    agrees with [toLowerCase] on strings of such code units and serves to run
    the model on them. *)
Definition lower_unit (c : N) : N :=
  if ((0x41 <=? c) && (c <=? 0x5A)
      || (0xC0 <=? c) && (c <=? 0xDE) && negb (c =? 0xD7))%N
  then (c + 32)%N else c.

Definition latin1_case : Unicode :=
  {| toLowerCase := map lower_unit |}.

End JsString.
Import JsString.

(** ** Values, documents, errors *)

(** Field values of a stored document. *)
Inductive jsval :=
| VStr (s : jsstring)
| VNum (n : Z)
| VObjectId (n : N)
| VDate (t : Z)
| VIdList (l : list N).

(** A document is a JavaScript object used as a map from keys to values. *)
Abbreviation doc := (gmap string jsval).

(** [class apiError extends Error] (backend/notes.md): every call site passes
    a status code and a message, so [errors] takes its default [[]]. *)
Module apiError.
Record t := mk {
  statusCode : Z;
  errors : list string;
  data : option doc;          (* always [null] *)
  message : string;
  success : bool
}.
Definition new (statusCode : Z) (message : string) : t :=
  {| statusCode := statusCode; errors := []; data := None;
     message := message; success := false |}.
End apiError.

(** [class ApiResponse] (backend/notes.md):
    [constructor(statusCode, message, data = "Success")]. *)
Module ApiResponse.
Inductive arg := ADoc (d : doc) | AStr (s : string).
Record t := mk {
  statusCode : Z;
  message : arg;
  data : arg;
  success : bool
}.
Definition new (statusCode : Z) (message : arg) (data : option arg) : t :=
  {| statusCode := statusCode;
     message := message;
     data := match data with Some d => d | None => AStr "Success" end;
     success := (200 <=? statusCode)%Z && (statusCode <? 300)%Z |}.
End ApiResponse.

(** What a handler can throw. *)
Inductive exn :=
| ExApi (e : apiError.t)
| ExTypeError (msg : string)
| ExReferenceError (msg : string)
| ExValidation (paths : list string)      (* Mongoose ValidationError *)
| ExMongoServer (code : Z)                (* e.g. E11000 duplicate key *)
| ExError (msg : string).                 (* errors of fs, cloudinary, bcrypt *)

(** A value found in [req.body]: the parsers of [app.js] and multer deliver
    strings, but a JSON or extended url-encoded body can also hold [null],
    numbers, booleans, arrays and objects. *)
Inductive jsfield :=
| FUndefined
| FNull
| FString (s : jsstring)
| FOther.                                 (* number, boolean, array, object *)

(** The string in a field, if it holds one. *)
Definition as_string (f : jsfield) : option jsstring :=
  match f with
  | FString s => Some s
  | _ => None
  end.

(** ** The world: repository, file system, remote storage, console *)

Record cloudinary_response := {
  url : jsstring;
  public_id : jsstring
}.

(** The object literal handed to [User.create] by the controller. A field of
    the body that is [undefined] or [null] appears as [None]: Mongoose's
    required validators reject both alike. *)
Record create_payload := {
  cp_fullName : option jsstring;
  cp_email : option jsstring;
  cp_username : jsstring;
  cp_password : option jsstring;
  cp_avatar : jsstring;
  cp_coverImage : jsstring
}.

(** Calls that leave the process, in the order they are made. *)
Inductive event :=
| EvConsole (label : string) (arg : jsfield)
| EvFindOne (email username : option jsstring)
| EvCloudUpload (path : jsstring)
| EvUnlink (path : jsstring)
| EvCreate (payload : create_payload)
| EvInsert (id : N)
| EvFindById (id : N).

Definition is_repository_call (e : event) : bool :=
  match e with
  | EvFindOne _ _ | EvCreate _ | EvInsert _ | EvFindById _ => true
  | _ => false
  end.


Definition is_upload_call (e : event) : bool :=
  match e with
  | EvCloudUpload _ => true
  | _ => false
  end.

Record world := {
  w_users : list doc;                                 (* the users collection *)
  w_files : gset jsstring;                            (* local files, by path *)
  w_remote : jsstring -> option cloudinary_response;  (* outcome of a remote upload *)
  w_clock : Z;
  w_entropy : N;                                      (* source of bcrypt salts *)
  w_trace : list event
}.

Definition log_event (e : event) (w : world) : world :=
  {| w_users := w_users w; w_files := w_files w; w_remote := w_remote w;
     w_clock := w_clock w; w_entropy := w_entropy w;
     w_trace := w_trace w ++ [e] |}.

Definition set_files (f : gset jsstring) (w : world) : world :=
  {| w_users := w_users w; w_files := f; w_remote := w_remote w;
     w_clock := w_clock w; w_entropy := w_entropy w; w_trace := w_trace w |}.

Definition set_users (us : list doc) (w : world) : world :=
  {| w_users := us; w_files := w_files w; w_remote := w_remote w;
     w_clock := w_clock w; w_entropy := w_entropy w; w_trace := w_trace w |}.

Definition set_entropy (n : N) (w : world) : world :=
  {| w_users := w_users w; w_files := w_files w; w_remote := w_remote w;
     w_clock := w_clock w; w_entropy := n; w_trace := w_trace w |}.

(** ** State and exception monad *)

Inductive result (A : Type) :=
| Ok (a : A)
| Throw (e : exn).
Arguments Ok {A} a.
Arguments Throw {A} e.

Definition M (A : Type) : Type := world -> result A * world.

Definition ret {A} (a : A) : M A := fun w => (Ok a, w).

Definition throw {A} (e : exn) : M A := fun w => (Throw e, w).

Definition bind {A B} (m : M A) (k : A -> M B) : M B :=
  fun w =>
    match m w with
    | (Ok a, w') => k a w'
    | (Throw e, w') => (Throw e, w')
    end.

(** A pure computation that may throw. *)
Definition lift {A} (r : result A) : M A := fun w => (r, w).

(** [try { body } catch (error) { handler }]: effects of [body] up to the
    throw are kept. *)
Definition try_catch {A} (body : M A) (handler : exn -> M A) : M A :=
  fun w =>
    match body w with
    | (Ok a, w') => (Ok a, w')
    | (Throw e, w') => handler e w'
    end.

Declare Scope js_scope.
Delimit Scope js_scope with js.
Notation "x <- m ;; k" := (bind m (fun x => k))
  (at level 100, m at next level, right associativity) : js_scope.
Notation "m ;; k" := (bind m (fun _ => k))
  (at level 100, right associativity) : js_scope.
Local Open Scope js_scope.

(** ** Primitive effects *)

Definition console_log (label : string) (arg : jsfield) : M unit :=
  fun w => (Ok tt, log_event (EvConsole label arg) w).

Definition fs_existsSync (p : jsstring) : M bool :=
  fun w => (Ok (bool_decide (p ∈ w_files w)), w).

(** [fs.unlinkSync(path)]: throws when the path is not a string or no file is
    there. *)
Definition fs_unlinkSync (path : option jsstring) : M unit :=
  fun w =>
    match path with
    | None => (Throw (ExTypeError "The path argument must be of type string"), w)
    | Some p =>
        if bool_decide (p ∈ w_files w)
        then (Ok tt, log_event (EvUnlink p) (set_files (w_files w ∖ {[p]}) w))
        else (Throw (ExError "ENOENT: no such file or directory"), w)
    end.

(** [cloudinary.uploader.upload(path, {resource_type: "auto"})]: the SDK reads
    the local file at [path]; the remote service then answers with a
    descriptor or rejects. *)
Definition cloudinary_uploader_upload (p : jsstring) : M cloudinary_response :=
  fun w =>
    let w' := log_event (EvCloudUpload p) w in
    if bool_decide (p ∈ w_files w) then
      match w_remote w p with
      | Some r => (Ok r, w')
      | None => (Throw (ExError "cloudinary upload rejected"), w')
      end
    else (Throw (ExError "ENOENT: no such file or directory"), w').

(** ** Media upload helper

    The copy of [cloudinary.js] that ends in
    [module.exports = { uploadOnCloudinary }], the form the controller's
    [require] destructures. *)

Definition uploadOnCloudinary (localFilePath : option jsstring)
  : M (option cloudinary_response) :=
  try_catch
    (match localFilePath with
     | Some p =>
         if negb (truthy localFilePath) then ret None
         else
           response <- cloudinary_uploader_upload p ;;
           console_log "file uploaded to cloudinary successfully"
             (FString (url response)) ;;
           fs_unlinkSync localFilePath ;;
           ret (Some response)
     | None => ret None
     end)
    (fun error =>
       console_log "error while uploading file to cloudinary" FOther ;;
       (match localFilePath with
        | Some p =>
            if truthy localFilePath then
              there <- fs_existsSync p ;;
              if there then fs_unlinkSync localFilePath else ret tt
            else ret tt
        | None => ret tt
        end) ;;
       ret None).

(** The second copy of [cloudinary.js] in the repository. Its guard reads the
    undeclared identifier [localFilepath], which raises a ReferenceError
    inside the [try]; the handler then unlinks the path unconditionally. The
    file mixes [require] with an ES [export] statement. *)
Module Draft.

(** Reading an identifier that is declared nowhere. *)
Definition undeclared (name : string) : M (option jsstring) :=
  throw (ExReferenceError (name ++ " is not defined")).

Definition uploadOnCloudinary (localFilePath : option jsstring)
  : M (option cloudinary_response) :=
  try_catch
    (localFilepath <- undeclared "localFilepath" ;;
     if truthy localFilepath then ret None
     else
       match localFilePath with
       | Some p =>
           response <- cloudinary_uploader_upload p ;;
           console_log "file uploaded to cloudinary successfully"
             (FString (url response)) ;;
           ret (Some response)
       | None => throw (ExError "Missing required parameter - file")
       end)
    (fun error =>
       fs_unlinkSync localFilePath ;;
       console_log "error while uploading file to cloudinary" FOther ;;
       ret None).

End Draft.

(** ** The user model (Mongoose schema, hooks and methods) *)

(** bcrypt is an external library: its two entry points are an interface. The
    salt that [bcrypt.hash(data, rounds)] generates is drawn from the world's
    entropy. *)
Class Bcrypt := {
  bcrypt_hash : jsstring -> Z -> N -> jsstring;     (* data, rounds, salt seed *)
  bcrypt_compare : jsstring -> jsstring -> bool     (* data, encrypted *)
}.

(** The contract of bcrypt the specification relies on. *)
Class BcryptLaws (B : Bcrypt) : Prop := {
  bcrypt_compare_hash : forall data rounds salt,
    bcrypt_compare data (bcrypt_hash data rounds salt) = true;
  bcrypt_hash_not_plain : forall data rounds salt,
    bcrypt_hash data rounds salt <> data
}.

Module UserModel.

(** Options of a schema path of type String. *)
Record path_opts := {
  required : bool;
  unique : bool;
  opt_trim : bool;
  lowercase : bool
}.

Definition plain : path_opts :=
  {| required := false; unique := false; opt_trim := false; lowercase := false |}.

(** [userSchema], String paths in declaration order. [watchHistory] is an
    array of ObjectIds and defaults to the empty array; [timestamps: true]
    adds [createdAt] and [updatedAt]. *)
Definition userSchema : list (string * path_opts) :=
  [ ("username",
      {| required := true; unique := true; opt_trim := true; lowercase := true |});
    ("fullName",
      {| required := true; unique := false; opt_trim := true; lowercase := false |});
    ("password",
      {| required := true; unique := false; opt_trim := false; lowercase := false |});
    ("email",
      {| required := true; unique := true; opt_trim := true; lowercase := true |});
    ("avatar",
      {| required := true; unique := false; opt_trim := false; lowercase := false |});
    ("coverImage", plain);
    ("refreshTokens", plain) ].

Fixpoint schema_path (sch : list (string * path_opts)) (k : string) : option path_opts :=
  match sch with
  | [] => None
  | (k', o) :: rest => if String.eqb k' k then Some o else schema_path rest k
  end.

Definition required_paths : list string :=
  map fst (List.filter (fun ko => required (snd ko)) userSchema).

Definition unique_paths : list string :=
  map fst (List.filter (fun ko => unique (snd ko)) userSchema).

(** A Mongoose document in memory: its fields and the paths modified since
    it was loaded (every assigned path, for a new document). *)
Record mdoc := {
  fields : doc;
  modified : gset string
}.

Definition isModified (m : mdoc) (k : string) : bool :=
  bool_decide (k ∈ modified m).

Definition get_string (d : doc) (k : string) : option jsstring :=
  match d !! k with
  | Some (VStr s) => Some s
  | _ => None
  end.

(** The [required] validator of a String path fails on a missing value and
    on the empty string. *)
Definition required_ok (d : doc) (k : string) : bool :=
  truthy (get_string d k).

Definition validate (d : doc) : list string :=
  List.filter (fun k => negb (required_ok d k)) required_paths.

Definition same_at (k : string) (a b : doc) : bool :=
  match get_string a k, get_string b k with
  | Some x, Some y => jseqb x y
  | _, _ => false
  end.

(** Would inserting [d] break a unique index? *)
Definition violates_unique (us : list doc) (d : doc) : bool :=
  existsb (fun u => existsb (fun k => same_at k u d) unique_paths) us.

Definition id_of (d : doc) : option N :=
  match d !! "_id" with
  | Some (VObjectId n) => Some n
  | _ => None
  end.

(** A new ObjectId differs from every id in the collection. *)
Definition fresh_id (us : list doc) : N :=
  N.succ (fold_right N.max 0%N (omap id_of us)).

Definition stamp (now : Z) (m : mdoc) : mdoc :=
  {| fields := <["updatedAt" := VDate now]> (<["createdAt" := VDate now]> (fields m));
     modified := modified m |}.

(** [Query.select("-a b ...")]: the string is split on white space; a
    leading [-] excludes the field. An exclusion projection drops the
    listed keys; a projection with an included field keeps those and
    [_id]. *)
Fixpoint split_ws (s : string) (cur : string) : list string :=
  match s with
  | EmptyString => [cur]
  | String c r =>
      if is_whitespace (N_of_ascii c) then cur :: split_ws r ""
      else split_ws r (cur ++ String c "")
  end.

Definition parse_select (sel : string) : list (string * bool) :=
  map (fun field =>
         match field with
         | String "-" rest => (rest, false)
         | _ => (field, true)
         end)
      (List.filter (fun field => negb (String.eqb field "")) (split_ws sel "")).

Definition project (proj : list (string * bool)) (d : doc) : doc :=
  if forallb (fun fi => negb (snd fi)) proj
  then fold_right (fun fi acc => delete (fst fi) acc) d proj
  else fold_right (fun k acc => match d !! k with
                                | Some v => <[k := v]> acc
                                | None => acc
                                end)
                  ∅ ("_id" :: map fst (List.filter snd proj)).

Definition has_id (i : N) (u : doc) : bool :=
  match id_of u with
  | Some n => N.eqb n i
  | None => false
  end.

(** [User.findById(id).select(sel)]. *)
Definition findById_select (id : option N) (sel : string) : M (option doc) :=
  fun w =>
    match id with
    | None => (Ok None, w)
    | Some i =>
        (Ok (project (parse_select sel) <$> List.find (has_id i) (w_users w)),
         log_event (EvFindById i) w)
    end.

Section WithUnicode.
Context {U : Unicode}.

(** The setters [trim] and [lowercase] of a String path. *)
Definition apply_setters (o : path_opts) (s : jsstring) : jsstring :=
  let s1 := if opt_trim o then trim s else s in
  if lowercase o then toLowerCase s1 else s1.

(** Casting a string for a path, on assignment and in query filters. *)
Definition cast (k : string) (s : jsstring) : jsstring :=
  match schema_path userSchema k with
  | Some o => apply_setters o s
  | None => s
  end.

(** Assigning a string or [undefined]/[null] to a schema path. *)
Definition set_path (k : string) (v : option jsstring) (m : mdoc) : mdoc :=
  match v with
  | Some s => {| fields := <[k := VStr (cast k s)]> (fields m);
                 modified := {[k]} ∪ modified m |}
  | None => m
  end.

Definition new_document (id : N) (p : create_payload) : mdoc :=
  set_path "coverImage" (Some (cp_coverImage p))
    (set_path "avatar" (Some (cp_avatar p))
       (set_path "password" (cp_password p)
          (set_path "username" (Some (cp_username p))
             (set_path "email" (cp_email p)
                (set_path "fullName" (cp_fullName p)
                   {| fields := <["watchHistory" := VIdList []]>
                                  {["_id" := VObjectId id]};
                      modified := ∅ |}))))).

(** A query filter value against a stored field. The filter value goes
    through the path's setters; [undefined] and [null] are sent as [null],
    which only matches a record without the field. *)
Definition matches (k : string) (q : option jsstring) (u : doc) : bool :=
  match q with
  | Some s =>
      match get_string u k with
      | Some x => jseqb x (cast k s)
      | None => false
      end
  | None =>
      match u !! k with
      | None => true
      | Some _ => false
      end
  end.

(** [User.findOne({ $or: [{ email }, { username }] })]. *)
Definition findOne_or (email username : option jsstring) : M (option doc) :=
  fun w =>
    (Ok (List.find (fun u => matches "email" email u || matches "username" username u)
           (w_users w)),
     log_event (EvFindOne email username) w).

Section WithBcrypt.
Context {B : Bcrypt}.

(** [userSchema.pre('save', ...)]. *)
Definition pre_save (this : mdoc) : M mdoc :=
  if negb (isModified this "password") then ret this
  else
    match get_string (fields this) "password" with
    | Some pw =>
        fun w =>
          let salt := w_entropy w in
          (Ok {| fields := <["password" := VStr (bcrypt_hash pw 10 salt)]> (fields this);
                 modified := modified this |},
           set_entropy (N.succ salt) w)
    | None => throw (ExError "data and salt arguments required")
    end.

(** [userSchema.methods.isPasswordCorrect]. *)
Definition isPasswordCorrect (this : doc) (password : jsstring) : result bool :=
  match get_string this "password" with
  | Some encrypted => Ok (bcrypt_compare password encrypted)
  | None => Throw (ExError "data and hash arguments required")
  end.

(** [doc.save()] of a new document: validation, timestamps, the
    [pre('save')] hook, then the insert under the unique indexes. *)
Definition save_new (m : mdoc) : M doc :=
  match validate (fields m) with
  | (_ :: _) as bad => throw (ExValidation bad)
  | [] =>
      now <- (fun w => (Ok (w_clock w), w)) ;;
      hashed <- pre_save (stamp now m) ;;
      fun w =>
        let d := <["__v" := VNum 0]> (fields hashed) in
        if violates_unique (w_users w) d
        then (Throw (ExMongoServer 11000), w)
        else
          (Ok d,
           log_event (EvInsert (default 0%N (id_of d)))
             (set_users (w_users w ++ [d]) w))
  end.

(** [User.create(payload)]. *)
Definition create (p : create_payload) : M doc :=
  id <- (fun w => (Ok (fresh_id (w_users w)), log_event (EvCreate p) w)) ;;
  save_new (new_document id p).

End WithBcrypt.
End WithUnicode.

End UserModel.

(** ** The request and the controller *)

Record multer_file := {
  path : option jsstring
}.

Record req_files := {
  avatar : option (list multer_file);
  coverImages : option (list multer_file)
}.

(** The four properties the handler reads off [req.body]. *)
Record req_body := {
  username : jsfield;
  email : jsfield;
  password : jsfield;
  fullName : jsfield
}.

(** [req.body] is [undefined] when no parser has handled the request. *)
Record request := {
  body : option req_body;
  files : option req_files
}.

Record http_response := {
  status : Z;
  json : ApiResponse.t
}.

(** [field?.trim() === ""]: [undefined] and [null] short-circuit to
    [undefined]; any other value that is not a string has no [trim] method,
    and the call throws. *)
Definition is_blank (field : jsfield) : result bool :=
  match field with
  | FString s => Ok (jseqb (trim s) [])
  | FUndefined | FNull => Ok false
  | FOther => Throw (ExTypeError "field?.trim is not a function")
  end.

(** [fields.some(field => field?.trim() === "")]: left to right, stopping at
    the first blank field or at the first throw. *)
Fixpoint some_blank (fields : list jsfield) : result bool :=
  match fields with
  | [] => Ok false
  | field :: rest =>
      match is_blank field with
      | Ok true => Ok true
      | Ok false => some_blank rest
      | Throw e => Throw e
      end
  end.

(** The TypeError of [username.toLowerCase()] on a value that is no string. *)
Definition toLowerCase_error (username : jsfield) : exn :=
  ExTypeError
    match username with
    | FUndefined => "Cannot read properties of undefined (reading 'toLowerCase')"
    | FNull => "Cannot read properties of null (reading 'toLowerCase')"
    | _ => "username.toLowerCase is not a function"
    end.

(** [username.toLowerCase()]. *)
Definition call_toLowerCase {U : Unicode} (username : jsfield) : result jsstring :=
  match username with
  | FString s => Ok (toLowerCase s)
  | other => Throw (toLowerCase_error other)
  end.

(** [req.files?.<field>?.[0]?.path]. *)
Definition first_path (fs : option req_files)
    (field : req_files -> option (list multer_file)) : option jsstring :=
  match fs with
  | Some f =>
      match field f with
      | Some (file :: _) => path file
      | _ => None
      end
  | None => None
  end.

Section Controller.
Context {U : Unicode} {B : Bcrypt}.

Definition registerUser (req : request) : M http_response :=
  match body req with
  | None =>
      throw (ExTypeError
        "Cannot destructure property 'username' of 'req.body' as it is undefined.")
  | Some req_body =>
  let username := username req_body in
  let email := email req_body in
  let password := password req_body in
  let fullName := fullName req_body in
  console_log "email:" email ;;
  blank <- lift (some_blank [fullName; email; password; username]) ;;
  if (blank : bool)
  then throw (ExApi (apiError.new 400 "All fields are required"))
  else
    existedUser <- UserModel.findOne_or (as_string email) (as_string username) ;;
    match existedUser with
    | Some _ => throw (ExApi (apiError.new 409 "User already exists"))
    | None =>
        let avatarLocalPath := first_path (files req) avatar in
        let coverImagesLocalPath := first_path (files req) coverImages in
        if negb (truthy avatarLocalPath)
        then throw (ExApi (apiError.new 400 "Avatar is required"))
        else
          avatar <- uploadOnCloudinary avatarLocalPath ;;
          coverImages <- uploadOnCloudinary coverImagesLocalPath ;;
          match avatar with
          | None => throw (ExApi (apiError.new 400 "Avatar upload failed"))
          | Some avatar =>
              lowered <- lift (call_toLowerCase username) ;;
              newUser <- UserModel.create
                {| cp_fullName := as_string fullName;
                   cp_email := as_string email;
                   cp_username := lowered;
                   cp_password := as_string password;
                   cp_avatar := url avatar;
                   cp_coverImage :=
                     match coverImages with
                     | Some c => if truthy (Some (url c)) then url c else []
                     | None => []
                     end |} ;;
              createdUser <- UserModel.findById_select
                               (UserModel.id_of newUser)
                               "-password -refreshToken " ;;
              match createdUser with
              | None => throw (ExApi (apiError.new 500 "User creation failed"))
              | Some createdUser =>
                  ret {| status := 201;
                         json := ApiResponse.new 201
                                   (ApiResponse.ADoc createdUser)
                                   (Some (ApiResponse.AStr
                                            "User created successfully")) |}
              end
          end
    end
  end.

End Controller.

(** ** Stand-ins for running the model on concrete inputs *)

Definition toy_bcrypt : Bcrypt :=
  {| bcrypt_hash := fun data rounds salt => (js "$2b$10$" ++ data)%list;
     bcrypt_compare := fun data encrypted =>
                         jseqb encrypted (js "$2b$10$" ++ data)%list |}.

(** The model with both stand-ins plugged in. *)
Definition run_registerUser : request -> M http_response :=
  registerUser (U := latin1_case) (B := toy_bcrypt).

Definition alice_body : req_body :=
  {| username := FString (js "Alice"); email := FString (js "a@x.com");
     password := FString (js "secret"); fullName := FString (js "Alice A") |}.

Definition alice_files : req_files :=
  {| avatar := Some [ {| path := Some (js "/tmp/a.png") |} ];
     coverImages := None |}.

Definition alice_request : request :=
  {| body := Some alice_body; files := Some alice_files |}.

Definition alice_descriptor : cloudinary_response :=
  {| url := js "http://cdn/a.png"; public_id := js "a" |}.

Definition alice_world : world :=
  {| w_users := [];
     w_files := {[ js "/tmp/a.png" ]};
     w_remote := fun p => if jseqb p (js "/tmp/a.png")
                          then Some alice_descriptor else None;
     w_clock := 1000;
     w_entropy := 7;
     w_trace := [] |}.

(** ** Names for the stages of [registerUser] *)

(** [req.body.<field>] once the body has been destructured. *)
Definition body_field (field : req_body -> jsfield) (req : request) : jsfield :=
  match body req with
  | Some b => field b
  | None => FUndefined
  end.

(** The array the field check runs over. *)
Definition fields_of (req : request) : list jsfield :=
  [body_field fullName req; body_field email req;
   body_field password req; body_field username req].

(** The outcome of the handler's field check: [Some true] when it has found a
    blank field, [Some false] when the request passes, [None] when a TypeError
    has been thrown, by the destructuring of an undefined body or by the call
    of [trim] on a value that has no such method. *)
Definition field_check (req : request) : option bool :=
  match body req with
  | Some _ =>
      match some_blank (fields_of req) with
      | Ok blank => Some blank
      | Throw _ => None
      end
  | None => None
  end.

(** The world after the handler's first [console.log]. *)
Definition after_log (req : request) (w : world) : world :=
  log_event (EvConsole "email:" (body_field email req)) w.

(** The world in which the uploads start. *)
Definition before_upload (req : request) (w : world) : world :=
  log_event (EvFindOne (as_string (body_field email req))
                       (as_string (body_field username req)))
            (after_log req w).

(** The argument of [select] in the controller. *)
Definition select_spec : string := "-password -refreshToken ".

Definition sanitize (d : doc) : doc := delete "password" (delete "refreshToken" d).

Definition created_response (createdUser : doc) : http_response :=
  {| status := 201;
     json := ApiResponse.new 201 (ApiResponse.ADoc createdUser)
               (Some (ApiResponse.AStr "User created successfully")) |}.

Definition api_error (code : Z) (msg : string) : exn := ExApi (apiError.new code msg).

(** A value that is neither a string nor [undefined] nor [null]. *)
Definition is_other (f : jsfield) : bool :=
  match f with
  | FOther => true
  | _ => false
  end.

(** A string that [trim] empties. *)
Definition blank_string (f : jsfield) : bool :=
  match f with
  | FString s => jseqb (trim s) []
  | _ => false
  end.

Section Stages.
Context {U : Unicode}.

(** The record [findOne] returns, if any. *)
Definition existing (req : request) (w : world) : option doc :=
  List.find (fun u => UserModel.matches "email" (as_string (body_field email req)) u
                      || UserModel.matches "username"
                           (as_string (body_field username req)) u)
            (w_users w).

(** The object literal of the [User.create] call. *)
Definition payload_of (req : request) (u : jsstring) (av : cloudinary_response)
    (cov : option cloudinary_response) : create_payload :=
  {| cp_fullName := as_string (body_field fullName req);
     cp_email := as_string (body_field email req);
     cp_username := toLowerCase u;
     cp_password := as_string (body_field password req);
     cp_avatar := url av;
     cp_coverImage := match cov with
                      | Some c => if truthy (Some (url c)) then url c else []
                      | None => []
                      end |}.

(** The document [save_new] inserts for a payload, given the id, the time
    and the hashed password. *)
Definition persisted (p : create_payload) (id : N) (now : Z) (hash : jsstring) : doc :=
  <["__v" := VNum 0]>
    (<["password" := VStr hash]>
       (UserModel.fields (UserModel.stamp now (UserModel.new_document id p)))).

End Stages.

(** ** Concrete requests and worlds *)

(** The full name is made of spaces only. *)
Definition blank_name_request : request :=
  {| body := Some {| username := FString (js "Alice"); email := FString (js "a@x.com");
                     password := FString (js "secret"); fullName := FString (js "   ") |};
     files := Some alice_files |}.

(** The full name is one no-break space, [U+00A0]. *)
Definition nbsp_name_request : request :=
  {| body := Some {| username := FString (js "Alice"); email := FString (js "a@x.com");
                     password := FString (js "secret"); fullName := FString [0xA0%N] |};
     files := Some alice_files |}.

(** The full name is a number and the email is the empty string, as in the
    JSON body [{"fullName": 5, "email": "", ...}]. *)
Definition number_name_request : request :=
  {| body := Some {| username := FString (js "Alice"); email := FString [];
                     password := FString (js "secret"); fullName := FOther |};
     files := Some alice_files |}.

(** The username is missing and the password is a number. *)
Definition number_password_request : request :=
  {| body := Some {| username := FUndefined; email := FString (js "a@x.com");
                     password := FOther; fullName := FString (js "Alice A") |};
     files := Some alice_files |}.

(** No parser has filled in [req.body]. *)
Definition no_body_request : request :=
  {| body := None; files := Some alice_files |}.


(** The full name is missing from the form. *)
Definition no_name_request : request :=
  {| body := Some {| username := FString (js "Alice"); email := FString (js "a@x.com");
                     password := FString (js "secret"); fullName := FUndefined |};
     files := Some alice_files |}.

(** Padded and mixed-case fields. *)
Definition padded_request : request :=
  {| body := Some {| username := FString (js "Alice"); email := FString (js " A@X.com ");
                     password := FString (js "secret");
                     fullName := FString (js " Alice A ") |};
     files := Some alice_files |}.

Definition alice_payload : create_payload :=
  {| cp_fullName := Some (js "Alice A"); cp_email := Some (js "a@x.com");
     cp_username := js "alice"; cp_password := Some (js "secret");
     cp_avatar := js "http://cdn/a.png"; cp_coverImage := [] |}.

(** The record Alice's registration stores in [alice_world]. *)
Definition alice_stored : doc :=
  persisted (U := latin1_case) alice_payload 1 1000 (js "$2b$10$secret").

Definition alice_response : http_response := created_response (sanitize alice_stored).

(** The world after Alice has registered. *)
Definition alice_registered : world :=
  {| w_users := [alice_stored];
     w_files := ∅;
     w_remote := w_remote alice_world;
     w_clock := 1000;
     w_entropy := 8;
     w_trace :=
       [ EvConsole "email:" (FString (js "a@x.com"));
         EvFindOne (Some (js "a@x.com")) (Some (js "Alice"));
         EvCloudUpload (js "/tmp/a.png");
         EvConsole "file uploaded to cloudinary successfully"
           (FString (js "http://cdn/a.png"));
         EvUnlink (js "/tmp/a.png");
         EvCreate alice_payload;
         EvInsert 1;
         EvFindById 1 ] |}.

(** What [padded_request] hands to [User.create] and what is stored for it
    in [alice_world]. *)
Definition padded_payload : create_payload :=
  {| cp_fullName := Some (js " Alice A "); cp_email := Some (js " A@X.com ");
     cp_username := js "alice"; cp_password := Some (js "secret");
     cp_avatar := js "http://cdn/a.png"; cp_coverImage := [] |}.

Definition padded_stored : doc :=
  persisted (U := latin1_case) padded_payload 1 1000 (js "$2b$10$secret").

Definition padded_registered : world :=
  {| w_users := [padded_stored];
     w_files := ∅;
     w_remote := w_remote alice_world;
     w_clock := 1000;
     w_entropy := 8;
     w_trace :=
       [ EvConsole "email:" (FString (js " A@X.com "));
         EvFindOne (Some (js " A@X.com ")) (Some (js "Alice"));
         EvCloudUpload (js "/tmp/a.png");
         EvConsole "file uploaded to cloudinary successfully"
           (FString (js "http://cdn/a.png"));
         EvUnlink (js "/tmp/a.png");
         EvCreate padded_payload;
         EvInsert 1;
         EvFindById 1 ] |}.


(** ** Further vocabulary for the handler's effects *)

(** The local file a call of [uploadOnCloudinary] works on, if any. *)
Definition path_set (lp : option jsstring) : gset jsstring :=
  match lp with
  | Some p => if truthy lp then {[p]} else ∅
  | None => ∅
  end.

(** The remote call a call of [uploadOnCloudinary] makes, if any. *)
Definition upload_call_of (lp : option jsstring) : list event :=
  match lp with
  | Some p => if truthy lp then [EvCloudUpload p] else []
  | None => []
  end.


Section Vocabulary.
Context {U : Unicode}.

(** Does the request get as far as the uploads? *)
Definition reaches_uploads (req : request) (w : world) : bool :=
  match field_check req with Some false => true | _ => false end
  && match existing req w with Some _ => false | None => true end
  && truthy (first_path (files req) avatar).

(** A string that [trim], resp. [toLowerCase], leaves as it is. *)
Definition trimmed (x : jsstring) : bool := jseqb (trim x) x.

Definition lowercased (x : jsstring) : bool := jseqb (toLowerCase x) x.

(** A record whose [username] and [email] are trimmed and in lower case and
    whose [fullName] is trimmed. *)
Definition normalized (d : doc) : bool :=
  match UserModel.get_string d "username" with
  | Some x => trimmed x && lowercased x
  | None => true
  end
  && match UserModel.get_string d "email" with
     | Some x => trimmed x && lowercased x
     | None => true
     end
  && match UserModel.get_string d "fullName" with
     | Some x => trimmed x
     | None => true
     end.

End Vocabulary.

(** ** [asyncHandler] (backend/notes.md)

    [Promise.resolve(requestHandler(req, res, next)).catch((err) => next(err))]
    for an [async] request handler: either the handler has sent its response,
    or its rejection is passed to [next]. *)
Inductive dispatched :=
| Responded (r : http_response)
| Forwarded (err : exn).

Definition asyncHandler (requestHandler : request -> M http_response)
    (req : request) (w : world) : dispatched * world :=
  match requestHandler req w with
  | (Ok r, w') => (Responded r, w')
  | (Throw err, w') => (Forwarded err, w')
  end.

(** ** Token methods of the user model

    [jsonwebtoken]'s [sign(payload, secretOrPrivateKey, { expiresIn })] is an
    external library function: an interface. *)
Class Jwt := {
  jwt_sign : doc -> option string -> option string -> result string
}.

Module UserMethods.

(** An object literal [{ k1: v1, ... }]; a key whose value is [undefined] does
    not appear in the serialized payload. *)
Definition object_literal (entries : list (string * option jsval)) : doc :=
  fold_right (fun kv acc => match snd kv with
                            | Some v => <[fst kv := v]> acc
                            | None => acc
                            end) ∅ entries.

Section WithJwt.
Context {J : Jwt}.

(** [userSchema.methods.generateAccessToken]. *)
Definition generateAccessToken (this : doc) (process_env : gmap string string)
  : result string :=
  jwt_sign
    (object_literal [ ("_id", this !! "_id");
                      ("email", this !! "email");
                      ("username", this !! "username");
                      ("fullName", this !! "fullName") ])
    (process_env !! "ACCESS_TOKEN_SECRET")
    (process_env !! "ACCESS_TOKEN_EXPIRY").

(** [userSchema.methods.generateRefreshToken]. *)
Definition generateRefreshToken (this : doc) (process_env : gmap string string)
  : result string :=
  jwt_sign
    (object_literal [ ("_id", this !! "_id");
                      ("email", this !! "email");
                      ("username", this !! "username");
                      ("fullName", this !! "fullName") ])
    (process_env !! "REFRESH_TOKEN_SECRET")
    (process_env !! "REFRESH_TOKEN_EXPIRY").

End WithJwt.
End UserMethods.

(** A stand-in for [jsonwebtoken], for running the methods on concrete
    inputs. *)
Definition toy_jwt : Jwt :=
  {| jwt_sign := fun payload secret expiresIn =>
       match secret with
       | Some s => Ok ("jwt:" ++ s)
       | None => Throw (ExError "secretOrPrivateKey must have a value")
       end |}.

Definition example_env : gmap string string :=
  <["ACCESS_TOKEN_SECRET" := "a-secret"]>
    (<["ACCESS_TOKEN_EXPIRY" := "1d"]>
       (<["REFRESH_TOKEN_SECRET" := "r-secret"]>
          (<["REFRESH_TOKEN_EXPIRY" := "10d"]> ∅))).

(** A world in which only the cover image can be uploaded, and a request
    carrying both files. *)
Definition cover_descriptor : cloudinary_response :=
  {| url := js "http://cdn/c.png"; public_id := js "c" |}.

Definition two_files_request : request :=
  {| body := Some alice_body;
     files := Some {| avatar := Some [ {| path := Some (js "/tmp/a.png") |} ];
                      coverImages := Some [ {| path := Some (js "/tmp/c.png") |} ] |} |}.

Definition two_files_world : world :=
  {| w_users := [];
     w_files := {[ js "/tmp/a.png" ]} ∪ {[ js "/tmp/c.png" ]};
     w_remote := fun p => if jseqb p (js "/tmp/c.png")
                          then Some cover_descriptor else None;
     w_clock := 1000;
     w_entropy := 7;
     w_trace := [] |}.

(** Alice again, in capitals and with padding. *)
Definition shouting_request : request :=
  {| body := Some {| username := FString (js "  ALICE ");
                     email := FString (js "other@x.com");
                     password := FString (js "hunter2");
                     fullName := FString (js "Alice B") |};
     files := None |}.

(** A username with a capital letter outside ASCII, [U+00C9]. *)
Definition emile_request : request :=
  {| body := Some {| username := FString (0xC9%N :: js "MILE");
                     email := FString (js "e@x.com");
                     password := FString (js "secret");
                     fullName := FString (js "Emile") |};
     files := Some alice_files |}.

Definition emile_payload : create_payload :=
  {| cp_fullName := Some (js "Emile"); cp_email := Some (js "e@x.com");
     cp_username := 0xE9%N :: js "mile"; cp_password := Some (js "secret");
     cp_avatar := js "http://cdn/a.png"; cp_coverImage := [] |}.

Definition emile_stored : doc :=
  persisted (U := latin1_case) emile_payload 1 1000 (js "$2b$10$secret").

(** The world after [emile_request] has been served in [alice_world]. *)
Definition emile_registered : world :=
  {| w_users := [emile_stored];
     w_files := ∅;
     w_remote := w_remote alice_world;
     w_clock := 1000;
     w_entropy := 8;
     w_trace :=
       [ EvConsole "email:" (FString (js "e@x.com"));
         EvFindOne (Some (js "e@x.com")) (Some (0xC9%N :: js "MILE"));
         EvCloudUpload (js "/tmp/a.png");
         EvConsole "file uploaded to cloudinary successfully"
           (FString (js "http://cdn/a.png"));
         EvUnlink (js "/tmp/a.png");
         EvCreate emile_payload;
         EvInsert 1;
         EvFindById 1 ] |}.

(** The same username in small letters, [U+00E9] first, with another email. *)
Definition small_emile_request : request :=
  {| body := Some {| username := FString (0xE9%N :: js "mile");
                     email := FString (js "other@x.com");
                     password := FString (js "hunter2");
                     fullName := FString (js "Emile Again") |};
     files := Some alice_files |}.

(** The username is missing from the form. *)
Definition no_username_request : request :=
  {| body := Some {| username := FUndefined; email := FString (js "a@x.com");
                     password := FString (js "secret");
                     fullName := FString (js "Alice A") |};
     files := Some alice_files |}.

(** * Properties *)

(** ** Strings *)

Section StringFacts.

Lemma jseqb_eq a b : jseqb a b = true <-> a = b.
Proof. unfold jseqb. apply bool_decide_eq_true. Qed.


Lemma jseqb_refl a : jseqb a a = true.
Proof. now apply jseqb_eq. Qed.

Lemma trimEnd_idem s : trimEnd (trimEnd s) = trimEnd s.
Proof.
  induction s as [|c r IH]; simpl; [reflexivity|].
  destruct (trimEnd r) as [|c' r'] eqn:E.
  - destruct (is_whitespace c) eqn:W; simpl; [reflexivity | now rewrite W].
  - simpl. simpl in IH. rewrite IH. reflexivity.
Qed.

Lemma trimStart_trimEnd s : trimStart (trimEnd s) = trimEnd (trimStart s).
Proof.
  induction s as [|c r IH]; [reflexivity|].
  cbn [trimStart trimEnd].
  destruct (is_whitespace c) eqn:W.
  - rewrite <- IH. destruct (trimEnd r) as [|c' r']; [reflexivity|].
    cbn [trimStart]. now rewrite W.
  - cbn [trimEnd]. destruct (trimEnd r) as [|c' r']; cbn [trimStart]; now rewrite W.
Qed.

Lemma trimStart_idem s : trimStart (trimStart s) = trimStart s.
Proof.
  induction s as [|c r IH]; simpl; [reflexivity|].
  destruct (is_whitespace c) eqn:W; [exact IH | simpl; now rewrite W].
Qed.

Lemma trim_idem s : trim (trim s) = trim s.
Proof.
  unfold trim.
  now rewrite trimStart_trimEnd, trimStart_idem, trimEnd_idem.
Qed.

(** A string made of white space only is what [trim] empties. *)
Lemma trimStart_nil s : trimStart s = [] <-> forallb is_whitespace s = true.
Proof.
  induction s as [|c r IH]; cbn [trimStart forallb]; [tauto|].
  destruct (is_whitespace c); cbn [andb]; [exact IH|].
  split; discriminate.
Qed.

Lemma trimEnd_nil s : trimEnd s = [] <-> forallb is_whitespace s = true.
Proof.
  induction s as [|c r IH]; cbn [trimEnd forallb]; [tauto|].
  destruct (trimEnd r) as [|c' r'].
  - destruct (is_whitespace c); cbn [andb].
    + split; [intros _; now apply IH|reflexivity].
    + split; discriminate.
  - split; [discriminate|]. intros H.
    apply andb_true_iff in H as [_ H]. apply IH in H. discriminate.
Qed.

Lemma trim_nil s : trim s = [] <-> forallb is_whitespace s = true.
Proof.
  unfold trim. rewrite <- trimStart_trimEnd, trimStart_nil.
  split.
  - intros H. destruct (forallb is_whitespace s) eqn:E; [reflexivity|].
    destruct (trimEnd s) as [|c r] eqn:T.
    + apply trimEnd_nil in T. congruence.
    + exfalso. clear E.
      assert (Hl : forall t, forallb is_whitespace (trimEnd t) = true -> trimEnd t = []).
      { clear. induction t as [|c r IH]; cbn [trimEnd]; [reflexivity|].
        destruct (trimEnd r) as [|c' r'] eqn:T.
        - destruct (is_whitespace c) eqn:W; cbn [forallb]; [reflexivity|].
          rewrite W. discriminate.
        - cbn [forallb]. intros H. apply andb_true_iff in H as [_ H].
          specialize (IH H). discriminate. }
      rewrite <- T in H. apply Hl in H. congruence.
  - intros H. apply trimEnd_nil in H. now rewrite H.
Qed.

(** The code units of white space; none is a letter of Latin-1. *)
Lemma is_whitespace_spec c :
  is_whitespace c = true <-> In c (white_space ++ line_terminator).
Proof.
  unfold is_whitespace. rewrite existsb_exists. split.
  - intros (x & Hin & Hx). apply N.eqb_eq in Hx. now subst.
  - intros H. exists c. split; [exact H|apply N.eqb_refl].
Qed.

Lemma is_whitespace_letter c :
  (0x41 <= c <= 0x7A \/ 0xC0 <= c <= 0xFE)%N -> is_whitespace c = false.
Proof.
  intros H. destruct (is_whitespace c) eqn:E; [|reflexivity].
  apply is_whitespace_spec in E. cbn in E.
  repeat (destruct E as [E|E]; [subst c; exfalso; lia|]). destruct E.
Qed.

Lemma lower_unit_cases c :
  (lower_unit c = c /\ ~ ((0x41 <= c <= 0x5A) \/ (0xC0 <= c <= 0xDE /\ c <> 0xD7)))%N
  \/ (lower_unit c = c + 32
      /\ ((0x41 <= c <= 0x5A) \/ (0xC0 <= c <= 0xDE /\ c <> 0xD7)))%N.
Proof.
  unfold lower_unit.
  destruct (N.leb_spec 0x41 c), (N.leb_spec c 0x5A), (N.leb_spec 0xC0 c),
    (N.leb_spec c 0xDE), (N.eqb_spec c 0xD7); cbn [andb orb negb];
    first [left; split; [reflexivity|lia] | right; split; [reflexivity|lia]].
Qed.

Lemma lower_unit_whitespace c : is_whitespace (lower_unit c) = is_whitespace c.
Proof.
  destruct (lower_unit_cases c) as [[E _]|[E H]]; rewrite E; [reflexivity|].
  rewrite !is_whitespace_letter; [reflexivity|lia|lia].
Qed.

Lemma lower_unit_idem c : lower_unit (lower_unit c) = lower_unit c.
Proof.
  destruct (lower_unit_cases c) as [[E _]|[E H]]; rewrite E; [exact E|].
  destruct (lower_unit_cases (c + 32)) as [[E' _]|[_ H']];
    [exact E'|exfalso; lia].
Qed.

Lemma trimStart_map_lower s :
  trimStart (map lower_unit s) = map lower_unit (trimStart s).
Proof.
  induction s as [|c r IH]; simpl; [reflexivity|].
  rewrite lower_unit_whitespace. destruct (is_whitespace c); [exact IH | reflexivity].
Qed.

Lemma trimEnd_map_lower s :
  trimEnd (map lower_unit s) = map lower_unit (trimEnd s).
Proof.
  induction s as [|c r IH]; simpl; [reflexivity|].
  rewrite IH, lower_unit_whitespace.
  destruct (trimEnd r); simpl; [destruct (is_whitespace c)|]; reflexivity.
Qed.

(** The Latin-1 conversion has the properties asked of [toLowerCase]. *)
Lemma latin1_case_laws : UnicodeLaws latin1_case.
Proof.
  split; cbn [toLowerCase latin1_case].
  - intros s. rewrite map_map. apply map_ext. intros c. apply lower_unit_idem.
  - intros s. unfold trim. now rewrite trimStart_map_lower, trimEnd_map_lower.
  - intros [|c r]; [reflexivity|discriminate].
Qed.

Lemma truthy_Some p : truthy (Some p) = true <-> p <> [].
Proof. destruct p; cbn; split; congruence. Qed.

End StringFacts.

(** ** The field check *)

Section FieldCheck.

Lemma is_blank_blank_string f :
  is_blank f = Ok true <-> blank_string f = true.
Proof. destruct f; cbn; split; congruence. Qed.

Lemma is_blank_throws f e : is_blank f = Throw e -> f = FOther.
Proof. destruct f; cbn; congruence. Qed.

(** The check answers [false] exactly when every field is [undefined],
    [null] or a string with something other than white space in it. *)
Lemma some_blank_false l :
  some_blank l = Ok false <->
  Forall (fun f => is_other f = false /\ blank_string f = false) l.
Proof.
  induction l as [|f l IH]; cbn [some_blank].
  - split; [constructor|reflexivity].
  - destruct f as [| |s|]; cbn [is_blank].
    + rewrite IH. split; [intros H; constructor; [split; reflexivity|exact H]|].
      intros H. now inversion H.
    + rewrite IH. split; [intros H; constructor; [split; reflexivity|exact H]|].
      intros H. now inversion H.
    + destruct (jseqb (trim s) []) eqn:E.
      * split; [discriminate|]. intros H. inversion H as [|? ? [_ Hb] _]; subst.
        cbn in Hb. congruence.
      * rewrite IH. split; [intros H; constructor; [split; [reflexivity|exact E]|exact H]|].
        intros H. now inversion H.
    + split; [discriminate|]. intros H. inversion H as [|? ? [Ho _] _]. discriminate.
Qed.

(** The check answers [true] exactly when some field is a blank string and
    no field before it holds a value without a [trim] method. *)
Lemma some_blank_true l :
  some_blank l = Ok true <->
  exists before s after,
    l = (before ++ FString s :: after)%list
    /\ trim s = []
    /\ Forall (fun f => is_other f = false) before.
Proof.
  induction l as [|f l IH]; cbn [some_blank].
  - split; [discriminate|]. intros (b & s & a & H & _). destruct b; discriminate.
  - split.
    + destruct (is_blank f) as [[|]|e] eqn:E; [| |discriminate].
      * intros _. destruct f as [| |s|]; cbn in E; try discriminate.
        exists [], s, l. split; [reflexivity|]. split; [|constructor].
        apply jseqb_eq. congruence.
      * intros H. apply IH in H as (b & s & a & -> & Hs & Hb).
        exists (f :: b), s, a. split; [reflexivity|]. split; [exact Hs|].
        constructor; [|exact Hb]. destruct f; cbn in E |- *; congruence.
    + intros (b & s & after & Hl & Hs & Hb).
      destruct b as [|f' b]; cbn [app] in Hl; injection Hl as -> ->.
      * cbn [is_blank]. rewrite Hs, jseqb_refl. reflexivity.
      * inversion Hb as [|? ? Ho Hb']; subst.
        destruct (is_blank f') as [[|]|e] eqn:E; [reflexivity| |].
        -- apply IH. exists b, s, after. repeat split; assumption.
        -- apply is_blank_throws in E. subst. discriminate.
Qed.

(** The check throws exactly when a value without a [trim] method comes
    before any blank string. *)
Lemma some_blank_throws l e :
  some_blank l = Throw e ->
  e = ExTypeError "field?.trim is not a function"
  /\ exists before after,
       l = (before ++ FOther :: after)%list
       /\ Forall (fun f => is_other f = false /\ blank_string f = false) before.
Proof.
  induction l as [|f l IH]; cbn [some_blank]; [discriminate|].
  destruct (is_blank f) as [[|]|e'] eqn:E; [discriminate| |].
  - intros H. destruct (IH H) as (-> & b & a & -> & Hb).
    split; [reflexivity|]. exists (f :: b), a. split; [reflexivity|].
    constructor; [|exact Hb]. destruct f; cbn in E |- *; try discriminate; split; congruence.
  - intros [= <-]. pose proof (is_blank_throws _ _ E) as ->.
    cbn in E. injection E as <-. split; [reflexivity|].
    exists [], l. split; [reflexivity|constructor].
Qed.

End FieldCheck.

(** ** The media upload helper *)

Section UploadFacts.

Lemma files_log_event e w : w_files (log_event e w) = w_files w.
Proof. reflexivity. Qed.

Lemma users_log_event e w : w_users (log_event e w) = w_users w.
Proof. reflexivity. Qed.

Lemma not_elem_of_remove (X : gset jsstring) p : p ∉ X ∖ {[p]}.
Proof. rewrite elem_of_difference, elem_of_singleton. intros [_ H]. now apply H. Qed.

Lemma remove_absent (X : gset jsstring) p : p ∉ X -> X = X ∖ {[p]}.
Proof.
  intros H. apply set_eq. intros x.
  rewrite elem_of_difference, elem_of_singleton. split.
  - intros Hx. split; [exact Hx|]. intros ->. contradiction.
  - intros [Hx _]. exact Hx.
Qed.

(** A falsy path: nothing happens at all. *)
Lemma uploadOnCloudinary_falsy lp w :
  truthy lp = false -> uploadOnCloudinary lp w = (Ok None, w).
Proof.
  intros H. unfold uploadOnCloudinary, try_catch.
  destruct lp as [p|]; [|reflexivity].
  rewrite H. reflexivity.
Qed.

(** The remote upload went through. *)
Lemma uploadOnCloudinary_success p r w :
  truthy (Some p) = true ->
  fst (cloudinary_uploader_upload p w) = Ok r ->
  uploadOnCloudinary (Some p) w =
    (Ok (Some r),
     log_event (EvUnlink p)
       (set_files (w_files w ∖ {[p]})
          (log_event (EvConsole "file uploaded to cloudinary successfully"
                        (FString (url r)))
             (log_event (EvCloudUpload p) w)))).
Proof.
  intros Ht Hup. unfold uploadOnCloudinary, try_catch, bind.
  rewrite Ht. cbn [negb].
  unfold cloudinary_uploader_upload in *.
  destruct (bool_decide (p ∈ w_files w)) eqn:Hin; [|discriminate Hup].
  destruct (w_remote w p) as [r'|]; [|discriminate Hup].
  cbn [fst] in Hup. injection Hup as ->.
  unfold console_log, fs_unlinkSync. cbn [log_event w_files].
  rewrite Hin. reflexivity.
Qed.

(** The remote upload threw. *)
Lemma uploadOnCloudinary_failure p e w :
  truthy (Some p) = true ->
  fst (cloudinary_uploader_upload p w) = Throw e ->
  exists w', uploadOnCloudinary (Some p) w = (Ok None, w')
             /\ w_files w' = w_files w ∖ {[p]}
             /\ w_users w' = w_users w.
Proof.
  intros Ht Hup. unfold uploadOnCloudinary, try_catch, bind.
  rewrite Ht. cbn [negb].
  unfold cloudinary_uploader_upload in *.
  destruct (bool_decide (p ∈ w_files w)) eqn:Hin.
  - destruct (w_remote w p) as [r'|]; [discriminate Hup|].
    unfold console_log, fs_existsSync, fs_unlinkSync, ret.
    cbn [log_event w_files]. rewrite Hin. cbn [log_event w_files]. rewrite Hin.
    eexists. split; [reflexivity|]. split; reflexivity.
  - unfold console_log, fs_existsSync, fs_unlinkSync, ret.
    cbn [log_event w_files]. rewrite Hin.
    eexists. split; [reflexivity|]. split; [|reflexivity].
    cbn [log_event w_files]. apply bool_decide_eq_false in Hin.
    now apply remove_absent.
Qed.

(** Whatever happens, the helper returns (a descriptor or null), it never
    throws, and it leaves the users collection alone. *)
Lemma uploadOnCloudinary_total lp w :
  exists r w', uploadOnCloudinary lp w = (Ok r, w')
               /\ w_users w' = w_users w
               /\ w_remote w' = w_remote w.
Proof.
  destruct (truthy lp) eqn:Ht.
  - destruct lp as [p|]; [|discriminate Ht].
    destruct (fst (cloudinary_uploader_upload p w)) as [r|e] eqn:Hup.
    + rewrite (uploadOnCloudinary_success p r w Ht Hup). eauto.
    + unfold uploadOnCloudinary, try_catch, bind.
      rewrite Ht. cbn [negb].
      unfold cloudinary_uploader_upload in *.
      destruct (bool_decide (p ∈ w_files w)) eqn:Hin.
      * destruct (w_remote w p) as [r'|]; [discriminate Hup|].
        unfold console_log, fs_existsSync, fs_unlinkSync, ret.
        cbn [log_event w_files]. rewrite Hin. cbn [log_event w_files]. rewrite Hin.
        eauto.
      * unfold console_log, fs_existsSync, fs_unlinkSync, ret.
        cbn [log_event w_files]. rewrite Hin. eauto.
  - rewrite (uploadOnCloudinary_falsy lp w Ht). eauto.
Qed.

End UploadFacts.

(** C7. [uploadOnCloudinary] has the contract [upload(localPath) -> URL | null]:
    it always returns (a descriptor or null); on a null, absent or empty path
    it returns null and leaves the world as it was; when the remote upload
    throws it returns null and the local file at the path, if there was one,
    is gone; when the remote upload succeeds it returns the remote descriptor
    and the local file is deleted. *)
Theorem C7_uploadOnCloudinary_contract (localFilePath : option jsstring) (w : world) :
  (exists r w', uploadOnCloudinary localFilePath w = (Ok r, w')) /\
  (truthy localFilePath = false ->
     uploadOnCloudinary localFilePath w = (Ok None, w)) /\
  (forall p e,
     localFilePath = Some p -> truthy localFilePath = true ->
     fst (cloudinary_uploader_upload p w) = Throw e ->
     exists w', uploadOnCloudinary localFilePath w = (Ok None, w')
                /\ w_files w' = w_files w ∖ {[p]}
                /\ p ∉ w_files w') /\
  (forall p r,
     localFilePath = Some p -> truthy localFilePath = true ->
     fst (cloudinary_uploader_upload p w) = Ok r ->
     exists w', uploadOnCloudinary localFilePath w = (Ok (Some r), w')
                /\ w_files w' = w_files w ∖ {[p]}
                /\ p ∉ w_files w').
Proof.
  split; [|split; [|split]].
  - destruct (uploadOnCloudinary_total localFilePath w) as (r & w' & H & _).
    eauto.
  - apply uploadOnCloudinary_falsy.
  - intros p e -> Ht Hup.
    destruct (uploadOnCloudinary_failure p e w Ht Hup) as (w' & H & Hf & _).
    exists w'. split; [exact H|]. split; [exact Hf|].
    rewrite Hf. apply not_elem_of_remove.
  - intros p r -> Ht Hup.
    rewrite (uploadOnCloudinary_success p r w Ht Hup).
    eexists. split; [reflexivity|]. cbn [log_event set_files w_files].
    split; [reflexivity|]. apply not_elem_of_remove.
Qed.

Lemma C7_uploadOnCloudinary_contract_witness :
  exists w', uploadOnCloudinary (Some (js "/tmp/a.png")) alice_world
             = (Ok (Some alice_descriptor), w')
             /\ w_files w' = w_files alice_world ∖ {[js "/tmp/a.png"]}
             /\ js "/tmp/a.png" ∉ w_files w'.
Proof.
  exact (proj2 (proj2 (proj2
           (C7_uploadOnCloudinary_contract (Some (js "/tmp/a.png")) alice_world)))
           (js "/tmp/a.png") alice_descriptor eq_refl eq_refl eq_refl).
Defined.

(** The draft copy of the helper never uploads: with a file at the path it
    deletes the file and returns null; with no path it throws. *)
Lemma Draft_uploadOnCloudinary_never_uploads p w :
  p ∈ w_files w ->
  Draft.uploadOnCloudinary (Some p) w =
    (Ok None,
     log_event (EvConsole "error while uploading file to cloudinary" FOther)
       (log_event (EvUnlink p) (set_files (w_files w ∖ {[p]}) w))).
Proof.
  intros Hin. unfold Draft.uploadOnCloudinary, try_catch, bind, Draft.undeclared, throw.
  unfold fs_unlinkSync. rewrite (bool_decide_eq_true_2 _ Hin). reflexivity.
Qed.

Lemma Draft_uploadOnCloudinary_null_throws w :
  exists e, Draft.uploadOnCloudinary None w = (Throw e, w).
Proof. eexists. reflexivity. Qed.

(** ** The user model *)

Section ModelFacts.
Context {U : Unicode} {B : Bcrypt}.
Import UserModel.

Lemma cast_username s : cast "username" s = toLowerCase (trim s).
Proof. reflexivity. Qed.

Lemma cast_email s : cast "email" s = toLowerCase (trim s).
Proof. reflexivity. Qed.

Lemma cast_fullName s : cast "fullName" s = trim s.
Proof. reflexivity. Qed.


Lemma required_paths_eq :
  required_paths = ["username"; "fullName"; "password"; "email"; "avatar"].
Proof. reflexivity. Qed.

Lemma validate_nil d :
  validate d = [] <-> forall k, In k required_paths -> required_ok d k = true.
Proof.
  unfold validate. generalize required_paths as l.
  induction l as [|k l IH]; cbn [List.filter].
  - split; [intros _ k []|reflexivity].
  - destruct (required_ok d k) eqn:E; cbn [negb].
    + rewrite IH. split.
      * intros H k' [<-|Hin]; [exact E|now apply H].
      * intros H k' Hin. apply H. now right.
    + split; [discriminate|]. intros H.
      rewrite (H k (or_introl eq_refl)) in E. discriminate.
Qed.

(** *** Fresh ids *)

Lemma fold_max_ge (l : list N) n : In n l -> (n <= fold_right N.max 0 l)%N.
Proof.
  induction l as [|m l IH]; [intros []|].
  intros [->|Hin]; cbn [fold_right]; [lia|]. specialize (IH Hin). lia.
Qed.

Lemma fresh_id_fresh us u : In u us -> id_of u <> Some (fresh_id us).
Proof.
  intros Hin Hid. unfold fresh_id in Hid.
  assert (Hm : In (fresh_id us) (omap id_of us)).
  { apply list_elem_of_In, list_elem_of_omap. exists u.
    split; [now apply list_elem_of_In|exact Hid]. }
  apply fold_max_ge in Hm. unfold fresh_id in Hm. lia.
Qed.

Lemma find_fresh us d :
  id_of d = Some (fresh_id us) ->
  List.find (has_id (fresh_id us)) (us ++ [d]) = Some d.
Proof.
  intros Hd.
  assert (Hno : forall u, In u us -> has_id (fresh_id us) u = false).
  { intros u Hin. unfold has_id. destruct (id_of u) as [n|] eqn:E; [|reflexivity].
    apply N.eqb_neq. intros ->. exact (fresh_id_fresh us u Hin E). }
  generalize dependent (fresh_id us). intros i Hd Hno.
  induction us as [|u us IH]; cbn [app List.find].
  - unfold has_id. rewrite Hd, N.eqb_refl. reflexivity.
  - rewrite (Hno u (or_introl eq_refl)). apply IH. intros u' H. apply Hno. now right.
Qed.

(** *** The pre-save hook *)

Lemma pre_save_unmodified this w :
  isModified this "password" = false -> pre_save this w = (Ok this, w).
Proof. intros H. unfold pre_save. rewrite H. reflexivity. Qed.

Lemma pre_save_modified this pw w :
  isModified this "password" = true ->
  get_string (fields this) "password" = Some pw ->
  pre_save this w =
    (Ok {| fields := <["password" := VStr (bcrypt_hash pw 10 (w_entropy w))]> (fields this);
           modified := modified this |},
     set_entropy (N.succ (w_entropy w)) w).
Proof. intros H1 H2. unfold pre_save. rewrite H1, H2. reflexivity. Qed.

Lemma validate_password this :
  validate (fields this) = [] ->
  exists pw, get_string (fields this) "password" = Some pw /\ pw <> [].
Proof.
  intros H. rewrite validate_nil in H.
  assert (Hp : required_ok (fields this) "password" = true).
  { apply H. rewrite required_paths_eq. cbn. tauto. }
  unfold required_ok in Hp.
  destruct (get_string (fields this) "password") as [pw|]; [|discriminate Hp].
  exists pw. split; [reflexivity|]. now apply truthy_Some.
Qed.

(** *** Creating a record *)

Lemma new_document_password id now p pw :
  cp_password p = Some pw ->
  isModified (stamp now (new_document id p)) "password" = true
  /\ get_string (fields (stamp now (new_document id p))) "password" = Some pw.
Proof.
  destruct p as [[f|] [e|] u pw' a c]; cbn [cp_password]; intros ->;
    split; reflexivity.
Qed.

Lemma new_document_get_password id p :
  get_string (fields (new_document id p)) "password" = cp_password p.
Proof. destruct p as [[f|] [e|] u [pw|] a c]; reflexivity. Qed.

End ModelFacts.

Section CreateFacts.
Context {U : Unicode} {B : Bcrypt}.
Import UserModel.

Lemma id_of_persisted p id now hash : id_of (persisted p id now hash) = Some id.
Proof. destruct p as [[f|] [e|] u [pw|] a c]; reflexivity. Qed.

(** [User.create] either rejects the payload or inserts [persisted]. *)
Lemma create_eq p w :
  create p w =
    let id := fresh_id (w_users w) in
    let w0 := log_event (EvCreate p) w in
    match validate (fields (new_document id p)) with
    | (_ :: _) as bad => (Throw (ExValidation bad), w0)
    | [] =>
        match cp_password p with
        | None => (Throw (ExError "data and salt arguments required"), w0)
        | Some pw =>
            let d := persisted p id (w_clock w) (bcrypt_hash pw 10 (w_entropy w)) in
            if violates_unique (w_users w) d
            then (Throw (ExMongoServer 11000), set_entropy (N.succ (w_entropy w)) w0)
            else (Ok d,
                  log_event (EvInsert id)
                    (set_users (w_users w ++ [d])
                       (set_entropy (N.succ (w_entropy w)) w0)))
        end
    end.
Proof.
  unfold create, bind, save_new. cbn [log_event w_users].
  destruct (validate (fields (new_document (fresh_id (w_users w)) p))) as [|k bad] eqn:Hv;
    [|reflexivity].
  unfold bind. cbn [log_event w_clock].
  destruct (validate_password _ Hv) as (pw & Hpw & _).
  assert (Hcp : cp_password p = Some pw).
  { now rewrite new_document_get_password in Hpw. }
  rewrite Hcp.
  destruct (new_document_password (fresh_id (w_users w)) (w_clock w) p pw Hcp) as [Hm Hg].
  rewrite (pre_save_modified _ pw _ Hm Hg).
  cbn [log_event set_entropy w_users w_entropy fields].
  fold (persisted p (fresh_id (w_users w)) (w_clock w) (bcrypt_hash pw 10 (w_entropy w))).
  rewrite id_of_persisted. reflexivity.
Qed.

(** The fields of an inserted document. *)
Lemma persisted_lookup p id now hash f e :
  cp_fullName p = Some f -> cp_email p = Some e ->
  let d := persisted p id now hash in
  d !! "_id" = Some (VObjectId id)
  /\ d !! "username" = Some (VStr (toLowerCase (trim (cp_username p))))
  /\ d !! "fullName" = Some (VStr (trim f))
  /\ d !! "email" = Some (VStr (toLowerCase (trim e)))
  /\ d !! "password" = Some (VStr hash)
  /\ d !! "avatar" = Some (VStr (cp_avatar p))
  /\ d !! "coverImage" = Some (VStr (cp_coverImage p))
  /\ d !! "watchHistory" = Some (VIdList [])
  /\ d !! "refreshTokens" = None
  /\ d !! "refreshToken" = None.
Proof.
  destruct p as [f' e' u [pw|] a c]; cbn [cp_fullName cp_email cp_username cp_avatar cp_coverImage];
    intros -> ->; repeat apply conj; reflexivity.
Qed.

(** A payload that passes validation has its three optional strings. *)
Lemma validate_new_document id p :
  validate (fields (new_document id p)) = [] <->
  (exists f e pw,
     cp_fullName p = Some f /\ cp_email p = Some e /\ cp_password p = Some pw
     /\ trim f <> [] /\ toLowerCase (trim e) <> [] /\ pw <> []
     /\ toLowerCase (trim (cp_username p)) <> [] /\ cp_avatar p <> []).
Proof.
  rewrite validate_nil, required_paths_eq. split.
  - intros H.
    assert (Hu := H "username" ltac:(cbn; tauto)).
    assert (Hf := H "fullName" ltac:(cbn; tauto)).
    assert (Hp := H "password" ltac:(cbn; tauto)).
    assert (He := H "email" ltac:(cbn; tauto)).
    assert (Ha := H "avatar" ltac:(cbn; tauto)).
    clear H. unfold required_ok in *.
    destruct p as [[f|] [e|] u [pw|] a c];
      try (exfalso; first [discriminate Hf | discriminate He | discriminate Hp]).
    exists f, e, pw. cbn [cp_fullName cp_email cp_password cp_username cp_avatar].
    repeat apply conj; try reflexivity; apply truthy_Some; assumption.
  - intros (f & e & pw & Hf & He & Hp & H1 & H2 & H3 & H4 & H5) k Hin.
    destruct p as [f' e' u pw' a c]. cbn [cp_fullName cp_email cp_password cp_username cp_avatar] in *.
    subst f' e' pw'. unfold required_ok.
    cbn in Hin.
    destruct Hin as [<-|[<-|[<-|[<-|[<-|[]]]]]]; apply truthy_Some; assumption.
Qed.


End CreateFacts.

(** ** The controller, stage by stage *)

Section ControllerFacts.
Context {U : Unicode} {B : Bcrypt}.
Import UserModel.

Lemma project_select d : project (parse_select select_spec) d = sanitize d.
Proof. reflexivity. Qed.

Lemma registerUser_eq req w :
  registerUser req w =
    match body req with
    | None =>
        (Throw (ExTypeError
           "Cannot destructure property 'username' of 'req.body' as it is undefined."),
         w)
    | Some _ =>
    match some_blank (fields_of req) with
    | Throw e => (Throw e, after_log req w)
    | Ok true => (Throw (api_error 400 "All fields are required"), after_log req w)
    | Ok false =>
      match existing req w with
      | Some _ => (Throw (api_error 409 "User already exists"), before_upload req w)
      | None =>
          if negb (truthy (first_path (files req) avatar))
          then (Throw (api_error 400 "Avatar is required"), before_upload req w)
          else
            match uploadOnCloudinary (first_path (files req) avatar) (before_upload req w) with
            | (Throw e, w2) => (Throw e, w2)
            | (Ok a, w2) =>
                match uploadOnCloudinary (first_path (files req) coverImages) w2 with
                | (Throw e, w3) => (Throw e, w3)
                | (Ok c, w3) =>
                    match a with
                    | None => (Throw (api_error 400 "Avatar upload failed"), w3)
                    | Some av =>
                        match body_field username req with
                        | FString u =>
                            match create (payload_of req u av c) w3 with
                            | (Throw e, w4) => (Throw e, w4)
                            | (Ok newUser, w4) =>
                                match findById_select (id_of newUser) select_spec w4 with
                                | (Throw e, w5) => (Throw e, w5)
                                | (Ok None, w5) =>
                                    (Throw (api_error 500 "User creation failed"), w5)
                                | (Ok (Some createdUser), w5) =>
                                    (Ok (created_response createdUser), w5)
                                end
                            end
                        | other => (Throw (toLowerCase_error other), w3)
                        end
                    end
                end
            end
      end
    end
    end.
Proof.
  unfold registerUser, bind, lift, console_log, throw, ret, findOne_or, fields_of,
    existing, before_upload, after_log, api_error, payload_of, body_field.
  destruct (body req) as [b|]; [|reflexivity].
  destruct (some_blank _) as [[|]|e]; [reflexivity| |reflexivity].
  cbn [log_event w_users].
  destruct (List.find _ (w_users w)); [reflexivity|].
  destruct (negb (truthy (first_path (files req) avatar))); [reflexivity|].
  destruct (uploadOnCloudinary (first_path (files req) avatar) _) as [[a|e] w2]; [|reflexivity].
  destruct (uploadOnCloudinary (first_path (files req) coverImages) w2) as [[c|e] w3]; [|reflexivity].
  destruct a as [av|]; [|reflexivity].
  destruct (username b) as [| |u|]; try reflexivity.
  cbn [call_toLowerCase].
  destruct (create _ w3) as [[newUser|e] w4]; [|reflexivity].
  destruct (findById_select (id_of newUser) _ w4) as [[[cu|]|e] w5]; reflexivity.
Qed.

(** After a successful [create], the re-fetch finds the new record. *)
Lemma findById_after_create p w d w' :
  create p w = (Ok d, w') ->
  findById_select (id_of d) select_spec w' =
    (Ok (Some (sanitize d)), log_event (EvFindById (fresh_id (w_users w))) w').
Proof.
  rewrite create_eq. cbn zeta.
  destruct (validate _) as [|k bad]; [|discriminate].
  destruct (cp_password p) as [pw|]; [|discriminate].
  destruct (violates_unique _ _); [discriminate|].
  intros H. injection H as <- <-.
  rewrite id_of_persisted. unfold findById_select.
  cbn [log_event set_users set_entropy w_users].
  rewrite find_fresh by apply id_of_persisted.
  reflexivity.
Qed.

(** What a successful run went through. *)
Lemma registerUser_ok_inv req w resp w' :
  registerUser req w = (Ok resp, w') ->
  exists u av cov w2 w3 newUser w4,
    some_blank (fields_of req) = Ok false
    /\ existing req w = None
    /\ truthy (first_path (files req) avatar) = true
    /\ uploadOnCloudinary (first_path (files req) avatar) (before_upload req w)
       = (Ok (Some av), w2)
    /\ uploadOnCloudinary (first_path (files req) coverImages) w2 = (Ok cov, w3)
    /\ body_field username req = FString u
    /\ create (payload_of req u av cov) w3 = (Ok newUser, w4)
    /\ w' = log_event (EvFindById (fresh_id (w_users w3))) w4
    /\ resp = created_response (sanitize newUser).
Proof.
  rewrite registerUser_eq.
  destruct (body req) as [b|] eqn:Hbody; [|discriminate].
  destruct (some_blank _) as [[|]|e0] eqn:Hb; [discriminate| |discriminate].
  destruct (existing req w) eqn:Hex; [discriminate|].
  destruct (truthy (first_path (files req) avatar)) eqn:Ht; cbn [negb]; [|discriminate].
  destruct (uploadOnCloudinary (first_path (files req) avatar) _) as [[a|e] w2] eqn:Ha;
    [|discriminate].
  destruct (uploadOnCloudinary (first_path (files req) coverImages) w2) as [[c|e] w3] eqn:Hcov;
    [|discriminate].
  destruct a as [av|]; [|discriminate].
  destruct (body_field username req) as [| |u|] eqn:Hu; try discriminate.
  destruct (create _ w3) as [[newUser|e] w4] eqn:Hc; [|discriminate].
  rewrite (findById_after_create _ _ _ _ Hc).
  intros H. injection H as <- <-.
  exists u, av, c, w2, w3, newUser, w4.
  repeat apply conj; first [assumption | reflexivity].
Qed.


End ControllerFacts.

Section Completeness.
Context {U : Unicode} {B : Bcrypt}.
Import UserModel.

(** The uploads touch the file system and the trace only. *)
Lemma uploadOnCloudinary_frame lp w :
  exists r w', uploadOnCloudinary lp w = (Ok r, w')
               /\ w_users w' = w_users w /\ w_clock w' = w_clock w
               /\ w_entropy w' = w_entropy w /\ w_remote w' = w_remote w
               /\ exists l, w_trace w' = (w_trace w ++ l)%list.
Proof.
  destruct (truthy lp) eqn:Ht.
  - destruct lp as [p|]; [|discriminate Ht].
    destruct (fst (cloudinary_uploader_upload p w)) as [r|e] eqn:Hup.
    + rewrite (uploadOnCloudinary_success p r w Ht Hup). eexists _, _.
      split; [reflexivity|]. repeat apply conj; try reflexivity.
      eexists. cbn [log_event set_files w_trace]. rewrite <- !app_assoc. reflexivity.
    + unfold uploadOnCloudinary, try_catch, bind.
      rewrite Ht. cbn [negb].
      unfold cloudinary_uploader_upload in *.
      destruct (bool_decide (p ∈ w_files w)) eqn:Hin.
      * destruct (w_remote w p) as [r'|]; [discriminate Hup|].
        unfold console_log, fs_existsSync, fs_unlinkSync, ret.
        cbn [log_event w_files]. rewrite Hin. cbn [log_event w_files]. rewrite Hin.
        eexists _, _. split; [reflexivity|]. repeat apply conj; try reflexivity.
        eexists. cbn [log_event set_files w_trace]. rewrite <- !app_assoc. reflexivity.
      * unfold console_log, fs_existsSync, fs_unlinkSync, ret.
        cbn [log_event w_files]. rewrite Hin.
        eexists _, _. split; [reflexivity|]. repeat apply conj; try reflexivity.
        eexists. cbn [log_event set_files w_trace]. rewrite <- !app_assoc. reflexivity.
  - rewrite (uploadOnCloudinary_falsy lp w Ht). eexists _, _.
    split; [reflexivity|]. repeat apply conj; try reflexivity.
    exists []. symmetry. apply app_nil_r.
Qed.



End Completeness.

(** ** The claims of the specification *)

Section Claims.
Context {U : Unicode} {B : Bcrypt}.
Import UserModel.

Lemma as_string_Some f s : as_string f = Some s <-> f = FString s.
Proof. destruct f; cbn; split; congruence. Qed.

Lemma field_check_passes req :
  field_check req = Some false <->
  (exists b, body req = Some b) /\ some_blank (fields_of req) = Ok false.
Proof.
  unfold field_check. destruct (body req) as [b|].
  - destruct (some_blank (fields_of req)) as [[|]|e].
    + split; [discriminate|]. intros [_ H]. discriminate H.
    + split; [eauto|reflexivity].
    + split; [discriminate|]. intros [_ H]. discriminate H.
  - split; [discriminate|]. intros [[b Hb] _]. discriminate.
Qed.

Lemma field_check_blank req :
  field_check req = Some true <-> some_blank (fields_of req) = Ok true.
Proof.
  unfold field_check. destruct (body req) as [b|] eqn:Hb.
  - destruct (some_blank (fields_of req)) as [[|]|e]; split; congruence.
  - split; [discriminate|]. unfold fields_of, body_field. rewrite Hb. discriminate.
Qed.

(** A blank field: the 400 error, after the console line. *)
Lemma registerUser_blank req w :
  field_check req = Some true ->
  registerUser req w
  = (Throw (api_error 400 "All fields are required"), after_log req w).
Proof.
  intros Hfc. rewrite registerUser_eq. unfold field_check in Hfc.
  destruct (body req) as [b|]; [|discriminate Hfc].
  destruct (some_blank (fields_of req)) as [[|]|e0]; try discriminate Hfc.
  reflexivity.
Qed.

(** No body, or a value without a [trim] method before any blank string: a
    TypeError, before any repository or upload call. *)
Lemma registerUser_TypeError_early req w :
  field_check req = None ->
  exists msg,
    registerUser req w
    = (Throw (ExTypeError msg),
       match body req with Some _ => after_log req w | None => w end).
Proof.
  intros Hfc. rewrite registerUser_eq. unfold field_check in Hfc.
  destruct (body req) as [b|]; [|eauto].
  destruct (some_blank (fields_of req)) as [[|]|e0] eqn:E; try discriminate Hfc.
  destruct (some_blank_throws _ _ E) as [-> _]. eauto.
Qed.

(** The envelope of every successful registration, as the code builds it. *)
Lemma registerUser_envelope req w resp w' :
  registerUser req w = (Ok resp, w') ->
  status resp = 201%Z
  /\ ApiResponse.statusCode (json resp) = 201%Z
  /\ ApiResponse.success (json resp) = true
  /\ ApiResponse.data (json resp) = ApiResponse.AStr "User created successfully"
  /\ exists user, ApiResponse.message (json resp) = ApiResponse.ADoc user.
Proof.
  intros H. apply registerUser_ok_inv in H
    as (u & av & cov & w2 & w3 & d & w4 & _ & _ & _ & _ & _ & _ & _ & _ & ->).
  repeat apply conj; try reflexivity. eexists. reflexivity.
Qed.

(** What [create] did when it succeeded. *)
Lemma create_ok_inv p w d w' :
  create p w = (Ok d, w') ->
  exists f e pw,
    cp_fullName p = Some f /\ cp_email p = Some e /\ cp_password p = Some pw
    /\ d = persisted p (fresh_id (w_users w)) (w_clock w) (bcrypt_hash pw 10 (w_entropy w))
    /\ w' = log_event (EvInsert (fresh_id (w_users w)))
              (set_users (w_users w ++ [d])
                 (set_entropy (N.succ (w_entropy w)) (log_event (EvCreate p) w))).
Proof.
  rewrite create_eq. cbn zeta.
  destruct (validate _) as [|k bad] eqn:Hv; [|discriminate].
  apply validate_new_document in Hv as (f & e & pw & Hf & He & Hp & _).
  rewrite Hp. destruct (violates_unique _ _); [discriminate|].
  intros H. injection H as <- <-.
  exists f, e, pw. repeat apply conj; first [assumption | reflexivity].
Qed.

(** The projection named in the controller keeps a [refreshTokens] key: the
    excluded name is [refreshToken]. *)
Lemma sanitize_keeps_refreshTokens (d : doc) :
  sanitize d !! "refreshTokens" = d !! "refreshTokens".
Proof.
  unfold sanitize. rewrite !lookup_delete_ne by discriminate. reflexivity.
Qed.

Lemma sanitize_other (d : doc) k :
  k <> "password" -> k <> "refreshToken" -> sanitize d !! k = d !! k.
Proof.
  intros H1 H2. unfold sanitize. rewrite !lookup_delete_ne by congruence. reflexivity.
Qed.

(** C1. For every successful registration the user object of the HTTP 201
    response has neither a [password] key nor a [refreshTokens] key: it is the
    record just stored, re-fetched by id with [password] (and [refreshToken])
    projected away, and the stored record has no [refreshTokens] field. *)
Theorem C1_response_lacks_password_and_refreshTokens req w resp w' :
  registerUser req w = (Ok resp, w') ->
  exists stored user,
    last (w_users w') = Some stored
    /\ user = sanitize stored
    /\ resp = created_response user
    /\ status resp = 201%Z
    /\ is_Some (stored !! "password")
    /\ user !! "password" = None
    /\ user !! "refreshTokens" = None
    /\ (forall k, k <> "password" -> k <> "refreshToken" -> user !! k = stored !! k).
Proof.
  intros H. apply registerUser_ok_inv in H
    as (u & av & cov & w2 & w3 & d & w4 & _ & _ & _ & _ & _ & _ & Hc & -> & ->).
  apply create_ok_inv in Hc as (f & e & pw & Hf & He & Hp & Hd & ->).
  destruct (persisted_lookup _ (fresh_id (w_users w3)) (w_clock w3)
              (bcrypt_hash pw 10 (w_entropy w3)) f e Hf He)
    as (_ & _ & _ & _ & Lp & _ & _ & _ & Lr & _).
  rewrite <- Hd in Lp, Lr.
  exists d, (sanitize d). cbn [log_event set_users set_entropy w_users].
  repeat apply conj; try reflexivity.
  - apply last_snoc.
  - rewrite Lp. eauto.
  - unfold sanitize. apply lookup_delete_eq.
  - rewrite sanitize_keeps_refreshTokens. exact Lr.
  - apply sanitize_other.
Qed.

(** C3, with the precondition the code needs. A required field that is a
    blank or whitespace-only string, with no value before it in
    [[fullName, email, password, username]] that lacks a [trim] method: the
    handler throws the 400 validation error right after its first
    [console.log]; the world is otherwise untouched, so no repository or
    upload call has been made. *)
Theorem C3_blank_field_rejected req w before s after :
  fields_of req = (before ++ FString s :: after)%list ->
  trim s = [] ->
  Forall (fun f => is_other f = false) before ->
  exists e w',
    registerUser req w = (Throw (ExApi e), w')
    /\ e = apiError.new 400 "All fields are required"
    /\ apiError.statusCode e = 400%Z
    /\ w_users w' = w_users w
    /\ w_files w' = w_files w
    /\ exists new_events,
         w_trace w' = (w_trace w ++ new_events)%list
         /\ Forall (fun ev => is_repository_call ev = false
                              /\ is_upload_call ev = false) new_events.
Proof.
  intros Hl Hs Hb.
  assert (Hblank : some_blank (fields_of req) = Ok true).
  { apply some_blank_true. exists before, s, after. auto. }
  apply field_check_blank in Hblank.
  rewrite (registerUser_blank req w Hblank).
  eexists _, _. split; [reflexivity|].
  repeat apply conj; try reflexivity.
  eexists. split; [reflexivity|]. repeat constructor.
Qed.

End Claims.

Section MoreClaims.
Context {U : Unicode} {B : Bcrypt}.
Import UserModel.

Lemma cover_url (cov : option cloudinary_response) :
  match cov with
  | Some c => if truthy (Some (url c)) then url c else []
  | None => []
  end
  = match cov with Some c => url c | None => [] end.
Proof.
  destruct cov as [c|]; [|reflexivity]. destruct (url c); reflexivity.
Qed.

Lemma existing_Some req w u :
  In u (w_users w) ->
  (matches "email" (as_string (body_field email req)) u
   || matches "username" (as_string (body_field username req)) u) = true ->
  exists x, existing req w = Some x.
Proof.
  intros Hin Hm. unfold existing.
  destruct (List.find _ (w_users w)) as [x|] eqn:E; [eauto|].
  pose proof (find_none _ _ E u Hin) as Hno. cbn beta in Hno. congruence.
Qed.

(** A request that passes the field check gets to the duplication query, and
    nothing later throws the "All fields are required" error. *)
Lemma registerUser_past_validation req w :
  field_check req = Some false ->
  exists r w' later,
    registerUser req w = (r, w')
    /\ r <> Throw (api_error 400 "All fields are required")
    /\ w_trace w' = (w_trace (before_upload req w) ++ later)%list.
Proof.
  intros Hfc. apply field_check_passes in Hfc as [[b Hbody] Hb].
  rewrite registerUser_eq, Hbody, Hb.
  destruct (existing req w).
  { eexists _, _, []. split; [reflexivity|]. split; [discriminate|].
    symmetry. apply app_nil_r. }
  destruct (negb (truthy (first_path (files req) avatar))).
  { eexists _, _, []. split; [reflexivity|]. split; [discriminate|].
    symmetry. apply app_nil_r. }
  destruct (uploadOnCloudinary_frame (first_path (files req) avatar) (before_upload req w))
    as (a & w2 & -> & _ & _ & _ & _ & l1 & T1).
  destruct (uploadOnCloudinary_frame (first_path (files req) coverImages) w2)
    as (c & w3 & -> & _ & _ & _ & _ & l2 & T2).
  assert (T3 : w_trace w3 = (w_trace (before_upload req w) ++ (l1 ++ l2))%list).
  { rewrite T2, T1, app_assoc. reflexivity. }
  destruct a as [av|].
  2:{ eexists _, _, _. split; [reflexivity|]. split; [discriminate|exact T3]. }
  destruct (body_field username req) as [| |u|].
  1,2,4: eexists _, _, _; (split; [reflexivity|]); (split; [discriminate|exact T3]).
  destruct (create (payload_of req u av c) w3) as [[d|e] w4] eqn:Hc.
  - rewrite (findById_after_create _ _ _ _ Hc).
    apply create_ok_inv in Hc as (_ & _ & _ & _ & _ & _ & _ & ->).
    eexists _, _, _. split; [reflexivity|]. split; [discriminate|].
    cbn [log_event set_users set_entropy w_trace]. rewrite T3, <- !app_assoc. reflexivity.
  - rewrite create_eq in Hc. cbn zeta in Hc.
    destruct (validate _) as [|k bad].
    + destruct (cp_password _) as [pw|].
      * destruct (violates_unique _ _); [|discriminate Hc].
        injection Hc as <- <-.
        eexists _, _, _. split; [reflexivity|]. split; [discriminate|].
        cbn [log_event set_users set_entropy w_trace]. rewrite T3, <- !app_assoc. reflexivity.
      * injection Hc as <- <-.
        eexists _, _, _. split; [reflexivity|]. split; [discriminate|].
        cbn [log_event w_trace]. rewrite T3, <- !app_assoc. reflexivity.
    + injection Hc as <- <-.
      eexists _, _, _. split; [reflexivity|]. split; [discriminate|].
      cbn [log_event w_trace]. rewrite T3, <- !app_assoc. reflexivity.
Qed.

(** C4, with the precondition the code needs. A request that passes the field
    check and whose email or username matches a stored record is answered with
    the 409 conflict error, the same error whichever field collided; the users
    collection is unchanged and only the console and the duplication query
    were reached. *)
Theorem C4_conflict_after_validation req w u :
  field_check req = Some false ->
  In u (w_users w) ->
  (matches "email" (as_string (body_field email req)) u
   || matches "username" (as_string (body_field username req)) u) = true ->
  exists e w',
    registerUser req w = (Throw (ExApi e), w')
    /\ e = apiError.new 409 "User already exists"
    /\ apiError.statusCode e = 409%Z
    /\ w' = before_upload req w
    /\ w_users w' = w_users w
    /\ w_files w' = w_files w.
Proof.
  intros Hfc Hin Hm. apply field_check_passes in Hfc as [[b Hbody] Hb].
  destruct (existing_Some req w u Hin Hm) as (x & Hx).
  rewrite registerUser_eq, Hbody, Hb, Hx.
  eexists _, _. split; [reflexivity|]. repeat apply conj; reflexivity.
Qed.



End MoreClaims.

Section PersistenceClaims.
Context {U : Unicode} {B : Bcrypt}.
Import UserModel.

(** What a successful run stored, field by field. *)
Lemma registerUser_stored req w resp w' :
  registerUser req w = (Ok resp, w') ->
  exists f e pw u av cov w2 w3 stored,
    body_field fullName req = FString f /\ body_field email req = FString e
    /\ body_field password req = FString pw /\ body_field username req = FString u
    /\ uploadOnCloudinary (first_path (files req) avatar) (before_upload req w)
       = (Ok (Some av), w2)
    /\ uploadOnCloudinary (first_path (files req) coverImages) w2 = (Ok cov, w3)
    /\ In (EvCreate (payload_of req u av cov)) (w_trace w')
    /\ stored = persisted (payload_of req u av cov) (fresh_id (w_users w)) (w_clock w)
                  (bcrypt_hash pw 10 (w_entropy w))
    /\ w_users w' = (w_users w ++ [stored])%list.
Proof.
  intros H. apply registerUser_ok_inv in H
    as (u & av & cov & w2 & w3 & d & w4 & _ & _ & _ & Ha & Hcov & Hu & Hc & -> & ->).
  apply create_ok_inv in Hc as (f & e & pw & Hf & He & Hp & Hd & ->).
  cbn [payload_of cp_fullName cp_email cp_password] in Hf, He, Hp.
  apply as_string_Some in Hf, He, Hp.
  destruct (uploadOnCloudinary_frame (first_path (files req) avatar) (before_upload req w))
    as (r1 & w2' & E1 & U1 & C1 & N1 & _).
  rewrite Ha in E1. injection E1 as <- <-.
  destruct (uploadOnCloudinary_frame (first_path (files req) coverImages) w2)
    as (r2 & w3' & E2 & U2 & C2 & N2 & _).
  rewrite Hcov in E2. injection E2 as <- <-.
  cbn [before_upload after_log log_event w_users w_clock w_entropy] in U1, C1, N1.
  rewrite U2, U1, C2, C1, N2, N1 in Hd.
  exists f, e, pw, u, av, cov, w2, w3, d.
  cbn [log_event set_users set_entropy w_users w_trace].
  repeat apply conj; try assumption.
  - rewrite !in_app_iff. left. left. right. left. reflexivity.
  - rewrite U2, U1. reflexivity.
Qed.

(** The payload handed to [User.create] and the stored fields of a successful
    run, as the setters of the schema compute them. *)
Lemma registerUser_stored_fields req w resp w' :
  registerUser req w = (Ok resp, w') ->
  exists f e pw u av cov w2 w3 stored,
    body_field fullName req = FString f /\ body_field email req = FString e
    /\ body_field password req = FString pw /\ body_field username req = FString u
    /\ uploadOnCloudinary (first_path (files req) avatar) (before_upload req w)
       = (Ok (Some av), w2)
    /\ uploadOnCloudinary (first_path (files req) coverImages) w2 = (Ok cov, w3)
    /\ In (EvCreate {| cp_fullName := Some f;
                       cp_email := Some e;
                       cp_username := toLowerCase u;
                       cp_password := Some pw;
                       cp_avatar := url av;
                       cp_coverImage := match cov with Some c => url c | None => [] end |})
          (w_trace w')
    /\ last (w_users w') = Some stored
    /\ stored !! "_id" = Some (VObjectId (fresh_id (w_users w)))
    /\ stored !! "username" = Some (VStr (toLowerCase (trim (toLowerCase u))))
    /\ stored !! "fullName" = Some (VStr (trim f))
    /\ stored !! "email" = Some (VStr (toLowerCase (trim e)))
    /\ stored !! "password" = Some (VStr (bcrypt_hash pw 10 (w_entropy w)))
    /\ stored !! "avatar" = Some (VStr (url av))
    /\ stored !! "coverImage"
       = Some (VStr (match cov with Some c => url c | None => [] end)).
Proof.
  intros H. apply registerUser_stored in H
    as (f & e & pw & u & av & cov & w2 & w3 & d
        & Hf & He & Hp & Hu & Ha & Hcov & Hin & Hd & Hus).
  assert (Hpf : cp_fullName (payload_of req u av cov) = Some f)
    by (cbn; now rewrite Hf).
  assert (Hpe : cp_email (payload_of req u av cov) = Some e)
    by (cbn; now rewrite He).
  destruct (persisted_lookup (payload_of req u av cov) (fresh_id (w_users w)) (w_clock w)
              (bcrypt_hash pw 10 (w_entropy w)) f e Hpf Hpe)
    as (Li & Lu & Lf & Le & Lp & La & Lc & _).
  rewrite <- Hd in Li, Lu, Lf, Le, Lp, La, Lc.
  cbn [payload_of cp_username cp_avatar cp_coverImage] in Lu, La, Lc.
  rewrite cover_url in Lc.
  unfold payload_of in Hin. rewrite Hf, He, Hp, cover_url in Hin.
  cbn [as_string] in Hin.
  exists f, e, pw, u, av, cov, w2, w3, d.
  repeat apply conj; try assumption.
  rewrite Hus. apply last_snoc.
Qed.

(** C9, as the code has it. For every successful registration the object
    handed to [User.create] carries the lowercased username, the full name and
    the email exactly as received, the raw password, the avatar URL and the
    cover URL (or the empty string) of the upload results; the record the
    repository then stores has the username trimmed and lowercased, the full
    name trimmed, the email trimmed and lowercased, the password hashed, and
    the same two URLs. *)
Theorem C9_record_handed_over_and_stored (L : UnicodeLaws U) req w resp w' :
  registerUser req w = (Ok resp, w') ->
  exists f e pw u av cov w2 w3 stored,
    body_field fullName req = FString f /\ body_field email req = FString e
    /\ body_field password req = FString pw /\ body_field username req = FString u
    /\ uploadOnCloudinary (first_path (files req) avatar) (before_upload req w)
       = (Ok (Some av), w2)
    /\ uploadOnCloudinary (first_path (files req) coverImages) w2 = (Ok cov, w3)
    /\ In (EvCreate {| cp_fullName := Some f;
                       cp_email := Some e;
                       cp_username := toLowerCase u;
                       cp_password := Some pw;
                       cp_avatar := url av;
                       cp_coverImage := match cov with Some c => url c | None => [] end |})
          (w_trace w')
    /\ last (w_users w') = Some stored
    /\ stored !! "username" = Some (VStr (toLowerCase (trim u)))
    /\ stored !! "fullName" = Some (VStr (trim f))
    /\ stored !! "email" = Some (VStr (toLowerCase (trim e)))
    /\ stored !! "password" = Some (VStr (bcrypt_hash pw 10 (w_entropy w)))
    /\ stored !! "avatar" = Some (VStr (url av))
    /\ stored !! "coverImage"
       = Some (VStr (match cov with Some c => url c | None => [] end)).
Proof.
  intros H. apply registerUser_stored_fields in H
    as (f & e & pw & u & av & cov & w2 & w3 & d
        & Hf & He & Hp & Hu & Ha & Hcov & Hin & Hlast
        & _ & Lu & Lf & Le & Lp & La & Lc).
  rewrite trim_lower, toLowerCase_idem in Lu.
  exists f, e, pw, u, av, cov, w2, w3, d.
  repeat apply conj; assumption.
Qed.

(** C8. The pre-save hook of a record that passed validation hashes the
    password with bcrypt at cost 10 when the password path is modified and
    leaves the record alone otherwise. Hence, for every successful
    registration, the stored password is the bcrypt hash of the plaintext of
    the request, differs from it, and [isPasswordCorrect] accepts the
    plaintext. *)
Theorem C8_password_hashed_before_save (L : BcryptLaws B) :
  (forall this w,
     validate (fields this) = [] ->
     exists pw,
       get_string (fields this) "password" = Some pw
       /\ (isModified this "password" = true ->
           pre_save this w =
             (Ok {| fields := <["password" := VStr (bcrypt_hash pw 10 (w_entropy w))]>
                                (fields this);
                    modified := modified this |},
              set_entropy (N.succ (w_entropy w)) w))
       /\ (isModified this "password" = false -> pre_save this w = (Ok this, w)))
  /\
  (forall req w resp w',
     registerUser req w = (Ok resp, w') ->
     exists plaintext stored,
       body_field password req = FString plaintext
       /\ last (w_users w') = Some stored
       /\ get_string stored "password" = Some (bcrypt_hash plaintext 10 (w_entropy w))
       /\ get_string stored "password" <> Some plaintext
       /\ isPasswordCorrect stored plaintext = Ok true).
Proof.
  split.
  - intros this w Hv. destruct (validate_password this Hv) as (pw & Hpw & _).
    exists pw. split; [exact Hpw|]. split.
    + intros Hm. exact (pre_save_modified this pw w Hm Hpw).
    + intros Hm. exact (pre_save_unmodified this w Hm).
  - intros req w resp w' H.
    apply registerUser_stored_fields in H
      as (f & e & pw & u & av & cov & w2 & w3 & d
          & _ & _ & Hp & _ & _ & _ & _ & Hlast & _ & _ & _ & _ & Lp & _).
    exists pw, d. unfold isPasswordCorrect, get_string. rewrite Lp.
    repeat apply conj; try assumption; try reflexivity.
    + intros [= Heq]. exact (bcrypt_hash_not_plain _ _ _ Heq).
    + rewrite bcrypt_compare_hash. reflexivity.
Qed.

(** C10, with the precondition the code needs. The "All fields are required"
    error is thrown exactly when some field is a string that trims to the
    empty string and no value before it in
    [[fullName, email, password, username]] lacks a [trim] method; an absent
    field never triggers it, so a request with a body whose fields are each
    absent, null or a non-blank string goes on to the duplication query
    whatever fields it lacks. *)
Theorem C10_absent_field_passes_field_check req w :
  ((exists w', registerUser req w
               = (Throw (api_error 400 "All fields are required"), w'))
   <-> (exists before s after,
          fields_of req = (before ++ FString s :: after)%list
          /\ trim s = []
          /\ Forall (fun f => is_other f = false) before))
  /\
  (body req <> None ->
   Forall (fun f => is_other f = false /\ blank_string f = false) (fields_of req) ->
   exists r w' later,
     registerUser req w = (r, w')
     /\ r <> Throw (api_error 400 "All fields are required")
     /\ w_trace w' = (w_trace w
                        ++ EvConsole "email:" (body_field email req)
                        :: EvFindOne (as_string (body_field email req))
                                     (as_string (body_field username req))
                        :: later)%list).
Proof.
  split.
  - rewrite <- some_blank_true, <- field_check_blank. split.
    + intros (w' & H). destruct (field_check req) as [[|]|] eqn:Hfc; [reflexivity| |].
      * destruct (registerUser_past_validation req w Hfc) as (r & w'' & l & E & Hne & _).
        rewrite H in E. injection E as <- <-. contradiction.
      * destruct (registerUser_TypeError_early req w Hfc) as (msg & E).
        rewrite H in E. discriminate E.
    + intros Hfc. rewrite (registerUser_blank req w Hfc). eauto.
  - intros Hbody Hall.
    assert (Hfc : field_check req = Some false).
    { apply field_check_passes. split.
      - destruct (body req) as [b|]; [eauto|contradiction].
      - now apply some_blank_false. }
    destruct (registerUser_past_validation req w Hfc) as (r & w' & l & E & Hne & T).
    exists r, w', l. split; [exact E|]. split; [exact Hne|].
    rewrite T. cbn [before_upload after_log log_event w_trace].
    rewrite <- !app_assoc. reflexivity.
Qed.

(** Past the field check, a request without a username gets as far as the
    [User.create] call and fails there on [username.toLowerCase()]. *)
Lemma missing_username_TypeError req w av w2 :
  field_check req = Some false ->
  existing req w = None ->
  truthy (first_path (files req) avatar) = true ->
  uploadOnCloudinary (first_path (files req) avatar) (before_upload req w)
    = (Ok (Some av), w2) ->
  as_string (body_field username req) = None ->
  exists msg w', registerUser req w = (Throw (ExTypeError msg), w').
Proof.
  intros Hfc Hex Ht Hav Hu. apply field_check_passes in Hfc as [[b Hbody] Hb].
  rewrite registerUser_eq, Hbody, Hb, Hex, Ht. cbn [negb].
  rewrite Hav.
  destruct (uploadOnCloudinary_frame (first_path (files req) coverImages) w2)
    as (c & w3 & -> & _).
  destruct (body_field username req); try discriminate Hu; eauto.
Qed.

End PersistenceClaims.

(** ** The model on concrete inputs *)

(** Closing a goal about concrete data by evaluation. *)
Ltac by_eval := vm_compute; first [reflexivity | discriminate].

(** The stand-in satisfies the contract assumed of bcrypt. *)
Lemma toy_bcrypt_laws : BcryptLaws toy_bcrypt.
Proof.
  split; intros data rounds salt.
  - apply jseqb_refl.
  - intros H. change ((js "$2b$10$" ++ data)%list = data) in H.
    apply (f_equal (@List.length N)) in H.
    rewrite length_app in H. cbn [js list_ascii_of_string map List.length] in H. lia.
Qed.

(** The specification's example: Alice registers and gets a 201. *)
Lemma alice_registers :
  run_registerUser alice_request alice_world = (Ok alice_response, alice_registered).
Proof. vm_compute. reflexivity. Qed.

Lemma C1_response_lacks_password_and_refreshTokens_witness :
  run_registerUser alice_request alice_world = (Ok alice_response, alice_registered)
  /\ exists stored user,
       last (w_users alice_registered) = Some stored
       /\ user = sanitize stored
       /\ alice_response = created_response user
       /\ status alice_response = 201%Z
       /\ is_Some (stored !! "password")
       /\ user !! "password" = None
       /\ user !! "refreshTokens" = None
       /\ (forall k, k <> "password" -> k <> "refreshToken" -> user !! k = stored !! k).
Proof.
  split; [vm_compute; reflexivity|].
  apply (C1_response_lacks_password_and_refreshTokens (U := latin1_case) (B := toy_bcrypt)
           alice_request alice_world alice_response alice_registered).
  vm_compute. reflexivity.
Defined.

(** C2. On the specification's own example the envelope has status 201 and
    [success = true], but its [data] is the string "User created successfully"
    and its [message] is the user record: the controller passes
    [(201, createdUser, "User created successfully")] to a constructor whose
    parameters are [(statusCode, message, data)]. *)
Theorem C2_envelope_has_user_in_message_slot :
  exists resp w' user,
    run_registerUser alice_request alice_world = (Ok resp, w')
    /\ status resp = 201%Z
    /\ ApiResponse.statusCode (json resp) = 201%Z
    /\ ApiResponse.success (json resp) = true
    /\ ApiResponse.message (json resp) = ApiResponse.ADoc user
    /\ user !! "username" = Some (VStr (js "alice"))
    /\ ApiResponse.data (json resp) = ApiResponse.AStr "User created successfully"
    /\ (forall d, ApiResponse.data (json resp) <> ApiResponse.ADoc d).
Proof.
  exists alice_response, alice_registered, (sanitize alice_stored).
  split; [vm_compute; reflexivity|].
  repeat apply conj; try reflexivity. discriminate.
Qed.

(** C3 does not hold of every request: the email is the empty string, but the
    full name, which is looked at first, is a number, and the call of [trim]
    on it throws a TypeError; no 400 is thrown. *)
Lemma C3_counterexample :
  In (FString []) (fields_of number_name_request)
  /\ trim [] = []
  /\ (exists w', run_registerUser number_name_request alice_world
                 = (Throw (ExTypeError "field?.trim is not a function"), w'))
  /\ ~ (exists e w', run_registerUser number_name_request alice_world
                     = (Throw (ExApi e), w')).
Proof.
  split; [right; left; reflexivity|]. split; [reflexivity|]. split.
  - eexists. vm_compute. reflexivity.
  - intros (e & w' & H). vm_compute in H. discriminate H.
Qed.

(** A full name made of one no-break space is rejected. *)
Lemma C3_blank_field_rejected_witness :
  fields_of nbsp_name_request
  = ([] ++ FString [0xA0%N]
        :: [FString (js "a@x.com"); FString (js "secret"); FString (js "Alice")])%list
  /\ trim [0xA0%N] = []
  /\ exists e w',
       run_registerUser nbsp_name_request alice_world = (Throw (ExApi e), w')
       /\ e = apiError.new 400 "All fields are required"
       /\ apiError.statusCode e = 400%Z
       /\ w_users w' = w_users alice_world
       /\ w_files w' = w_files alice_world
       /\ exists new_events,
            w_trace w' = (w_trace alice_world ++ new_events)%list
            /\ Forall (fun ev => is_repository_call ev = false
                                 /\ is_upload_call ev = false) new_events.
Proof.
  split; [reflexivity|]. split; [reflexivity|].
  apply (C3_blank_field_rejected (U := latin1_case) (B := toy_bcrypt)
           nbsp_name_request alice_world []
           [0xA0%N] [FString (js "a@x.com"); FString (js "secret"); FString (js "Alice")]).
  - reflexivity.
  - reflexivity.
  - constructor.
Defined.

(** C4 does not hold of every request: the email is the one Alice registered
    with, yet the blank full name makes the handler answer 400, not 409. *)
Lemma C4_counterexample :
  (exists u, In u (w_users alice_registered)
             /\ UserModel.matches (U := latin1_case) "email"
                  (as_string (body_field email blank_name_request)) u = true)
  /\ (exists w', run_registerUser blank_name_request alice_registered
                 = (Throw (api_error 400 "All fields are required"), w'))
  /\ ~ (exists e w', run_registerUser blank_name_request alice_registered
                     = (Throw (ExApi e), w')
                     /\ apiError.statusCode e = 409%Z).
Proof.
  split; [|split].
  - exists alice_stored. split; [left; reflexivity|by_eval].
  - eexists. vm_compute. reflexivity.
  - intros (e & w' & H & Hs).
    unfold run_registerUser in H.
    rewrite (registerUser_blank blank_name_request alice_registered) in H by by_eval.
    injection H as <- _. discriminate Hs.
Qed.

Lemma C4_conflict_after_validation_witness :
  field_check alice_request = Some false
  /\ In alice_stored (w_users alice_registered)
  /\ exists e w',
       run_registerUser alice_request alice_registered = (Throw (ExApi e), w')
       /\ e = apiError.new 409 "User already exists"
       /\ apiError.statusCode e = 409%Z
       /\ w' = before_upload alice_request alice_registered
       /\ w_users w' = w_users alice_registered
       /\ w_files w' = w_files alice_registered.
Proof.
  split; [by_eval|]. split; [left; reflexivity|].
  apply (C4_conflict_after_validation (U := latin1_case) (B := toy_bcrypt)
           alice_request alice_registered alice_stored).
  - by_eval.
  - left. reflexivity.
  - by_eval.
Defined.





Lemma C8_password_hashed_before_save_witness :
  run_registerUser alice_request alice_world = (Ok alice_response, alice_registered)
  /\ exists plaintext stored,
       body_field password alice_request = FString plaintext
       /\ last (w_users alice_registered) = Some stored
       /\ UserModel.get_string stored "password"
          = Some (bcrypt_hash (Bcrypt := toy_bcrypt) plaintext 10 (w_entropy alice_world))
       /\ UserModel.get_string stored "password" <> Some plaintext
       /\ UserModel.isPasswordCorrect (B := toy_bcrypt) stored plaintext = Ok true.
Proof.
  split; [by_eval|].
  apply (proj2 (C8_password_hashed_before_save (U := latin1_case) (B := toy_bcrypt)
                  toy_bcrypt_laws)
           alice_request alice_world alice_response alice_registered).
  by_eval.
Defined.

(** C9 does not hold of every registration: with a padded, mixed-case email
    the object handed to the repository holds the email and the full name
    untrimmed, and the stored record holds the email lowercased as well as
    trimmed and the password hashed; the trimmed email ["A@X.com"] is in
    neither. *)
Lemma C9_counterexample :
  exists resp w' handed stored,
    run_registerUser padded_request alice_world = (Ok resp, w')
    /\ In (EvCreate handed) (w_trace w')
    /\ cp_email handed = Some (js " A@X.com ")
    /\ cp_fullName handed = Some (js " Alice A ")
    /\ last (w_users w') = Some stored
    /\ stored !! "email" = Some (VStr (js "a@x.com"))
    /\ stored !! "password" = Some (VStr (js "$2b$10$secret"))
    /\ trim (js " A@X.com ") = js "A@X.com"
    /\ trim (js " Alice A ") = js "Alice A".
Proof.
  exists (created_response (sanitize padded_stored)), padded_registered,
    padded_payload, padded_stored.
  split; [by_eval|].
  split; [do 5 right; left; reflexivity|].
  repeat apply conj; by_eval.
Qed.

Lemma C9_record_handed_over_and_stored_witness :
  run_registerUser alice_request alice_world = (Ok alice_response, alice_registered)
  /\ exists f e pw u av cov w2 w3 stored,
       body_field fullName alice_request = FString f
       /\ body_field email alice_request = FString e
       /\ body_field password alice_request = FString pw
       /\ body_field username alice_request = FString u
       /\ uploadOnCloudinary (first_path (files alice_request) avatar)
            (before_upload alice_request alice_world) = (Ok (Some av), w2)
       /\ uploadOnCloudinary (first_path (files alice_request) coverImages) w2 = (Ok cov, w3)
       /\ In (EvCreate {| cp_fullName := Some f;
                          cp_email := Some e;
                          cp_username := toLowerCase (Unicode := latin1_case) u;
                          cp_password := Some pw;
                          cp_avatar := url av;
                          cp_coverImage := match cov with Some c => url c | None => [] end |})
             (w_trace alice_registered)
       /\ last (w_users alice_registered) = Some stored
       /\ stored !! "username"
          = Some (VStr (toLowerCase (Unicode := latin1_case) (trim u)))
       /\ stored !! "fullName" = Some (VStr (trim f))
       /\ stored !! "email"
          = Some (VStr (toLowerCase (Unicode := latin1_case) (trim e)))
       /\ stored !! "password"
          = Some (VStr (bcrypt_hash (Bcrypt := toy_bcrypt) pw 10 (w_entropy alice_world)))
       /\ stored !! "avatar" = Some (VStr (url av))
       /\ stored !! "coverImage"
          = Some (VStr (match cov with Some c => url c | None => [] end)).
Proof.
  split; [by_eval|].
  apply (C9_record_handed_over_and_stored (U := latin1_case) (B := toy_bcrypt)
           latin1_case_laws alice_request alice_world alice_response alice_registered).
  by_eval.
Defined.

(** C10 does not hold of every request. (1) The username is missing and no
    string field is blank, but the password is a number: the field check
    itself throws a TypeError and the duplication query is never made. (2) A
    present field, the email, trims to the empty string, but the full name
    before it is a number: a TypeError again, not the 400. *)
Lemma C10_counterexample :
  (In FUndefined (fields_of number_password_request)
   /\ (forall s, In (FString s) (fields_of number_password_request) -> trim s <> [])
   /\ run_registerUser number_password_request alice_world
      = (Throw (ExTypeError "field?.trim is not a function"),
         after_log number_password_request alice_world)
   /\ w_trace (after_log number_password_request alice_world)
      = [EvConsole "email:" (FString (js "a@x.com"))])
  /\
  (In (FString []) (fields_of number_name_request)
   /\ trim [] = []
   /\ exists w', run_registerUser number_name_request alice_world
                 = (Throw (ExTypeError "field?.trim is not a function"), w')).
Proof.
  split.
  - split; [do 3 right; left; reflexivity|]. split.
    + intros s [E|[E|[E|[E|[]]]]]; inversion E; subst; by_eval.
    + split; by_eval.
  - split; [right; left; reflexivity|]. split; [reflexivity|].
    eexists. vm_compute. reflexivity.
Qed.

Lemma C10_absent_field_passes_field_check_witness :
  In FUndefined (fields_of no_name_request)
  /\ body no_name_request <> None
  /\ Forall (fun f => is_other f = false /\ blank_string f = false)
       (fields_of no_name_request)
  /\ exists r w' later,
       run_registerUser no_name_request alice_world = (r, w')
       /\ r <> Throw (api_error 400 "All fields are required")
       /\ w_trace w' = (w_trace alice_world
                          ++ EvConsole "email:" (body_field email no_name_request)
                          :: EvFindOne (as_string (body_field email no_name_request))
                               (as_string (body_field username no_name_request))
                          :: later)%list.
Proof.
  assert (Hb : body no_name_request <> None) by discriminate.
  assert (H : Forall (fun f => is_other f = false /\ blank_string f = false)
                (fields_of no_name_request)).
  { repeat constructor. }
  split; [left; reflexivity|]. split; [exact Hb|]. split; [exact H|].
  exact (proj2 (C10_absent_field_passes_field_check (U := latin1_case) (B := toy_bcrypt)
                  no_name_request alice_world) Hb H).
Defined.

(** ** Further properties of the registration handler *)

Section HandlerEffects.
Context {U : Unicode} {B : Bcrypt}.
Import UserModel.

(** Everything a call of [uploadOnCloudinary] does to the world. *)
Lemma uploadOnCloudinary_effect lp w :
  exists r w' l,
    uploadOnCloudinary lp w = (Ok r, w')
    /\ w_users w' = w_users w /\ w_clock w' = w_clock w
    /\ w_entropy w' = w_entropy w /\ w_remote w' = w_remote w
    /\ w_files w' = w_files w ∖ path_set lp
    /\ w_trace w' = (w_trace w ++ l)%list
    /\ List.filter is_repository_call l = []
    /\ List.filter is_upload_call l = upload_call_of lp.
Proof.
  destruct (truthy lp) eqn:Ht.
  - destruct lp as [p|]; [|discriminate Ht].
    unfold path_set, upload_call_of. rewrite Ht.
    destruct (fst (cloudinary_uploader_upload p w)) as [r|e] eqn:Hup.
    + rewrite (uploadOnCloudinary_success p r w Ht Hup).
      eexists _, _,
        [EvCloudUpload p;
         EvConsole "file uploaded to cloudinary successfully" (FString (url r));
         EvUnlink p].
      split; [reflexivity|].
      cbn [log_event set_files w_users w_clock w_entropy w_remote w_files w_trace].
      rewrite <- !app_assoc. repeat apply conj; reflexivity.
    + unfold uploadOnCloudinary, try_catch, bind.
      rewrite Ht. cbn [negb].
      unfold cloudinary_uploader_upload in *.
      destruct (bool_decide (p ∈ w_files w)) eqn:Hin.
      * destruct (w_remote w p) as [r'|]; [discriminate Hup|].
        unfold console_log, fs_existsSync, fs_unlinkSync, ret.
        cbn [log_event w_files]. rewrite Hin. cbn [log_event w_files]. rewrite Hin.
        eexists _, _,
          [EvCloudUpload p;
           EvConsole "error while uploading file to cloudinary" FOther;
           EvUnlink p].
        split; [reflexivity|].
        cbn [log_event set_files w_users w_clock w_entropy w_remote w_files w_trace].
        rewrite <- !app_assoc. repeat apply conj; reflexivity.
      * unfold console_log, fs_existsSync, fs_unlinkSync, ret.
        cbn [log_event w_files]. rewrite Hin.
        eexists _, _,
          [EvCloudUpload p;
           EvConsole "error while uploading file to cloudinary" FOther].
        split; [reflexivity|].
        cbn [log_event set_files w_users w_clock w_entropy w_remote w_files w_trace].
        rewrite <- !app_assoc. repeat apply conj; try reflexivity.
        apply remove_absent. now apply bool_decide_eq_false in Hin.
  - rewrite (uploadOnCloudinary_falsy lp w Ht). exists None, w, [].
    split; [reflexivity|]. repeat apply conj; try reflexivity.
    + unfold path_set. destruct lp; rewrite ?Ht; symmetry; apply difference_empty_L.
    + symmetry. apply app_nil_r.
    + unfold upload_call_of. destruct lp; rewrite ?Ht; reflexivity.
Qed.

(** What a failing [create] leaves behind, and why it can fail. *)
Lemma create_throw_inv p w e w' :
  create p w = (Throw e, w') ->
  w_users w' = w_users w /\ w_files w' = w_files w
  /\ (exists l, w_trace w' = (w_trace w ++ EvCreate p :: l)%list
                /\ List.filter is_upload_call l = [])
  /\ ((exists k bad, e = ExValidation (k :: bad)
                      /\ validate (fields (new_document (fresh_id (w_users w)) p)) = k :: bad)
      \/ (exists pw, e = ExMongoServer 11000
                     /\ cp_password p = Some pw
                     /\ validate (fields (new_document (fresh_id (w_users w)) p)) = []
                     /\ violates_unique (w_users w)
                          (persisted p (fresh_id (w_users w)) (w_clock w)
                             (bcrypt_hash pw 10 (w_entropy w))) = true)).
Proof.
  rewrite create_eq. cbn zeta.
  destruct (validate _) as [|k bad] eqn:Hv.
  - pose proof (proj1 (validate_new_document _ _) Hv) as (f & e' & pw & _ & _ & Hp & _).
    rewrite Hp. destruct (violates_unique _ _) eqn:Hu; [|discriminate].
    intros H. injection H as <- <-. repeat apply conj; try reflexivity.
    + exists []. split; reflexivity.
    + right. exists pw. repeat apply conj; first [reflexivity | assumption].
  - intros H. injection H as <- <-. repeat apply conj; try reflexivity.
    + exists []. split; reflexivity.
    + left. exists k, bad. split; reflexivity.
Qed.

(** Both uploads, in the order the handler makes them. *)
Lemma uploads_stage req w :
  exists a c w2 w3 l,
    uploadOnCloudinary (first_path (files req) avatar) (before_upload req w) = (Ok a, w2)
    /\ uploadOnCloudinary (first_path (files req) coverImages) w2 = (Ok c, w3)
    /\ w_users w3 = w_users w /\ w_clock w3 = w_clock w /\ w_entropy w3 = w_entropy w
    /\ w_files w3 = (w_files w ∖ path_set (first_path (files req) avatar))
                      ∖ path_set (first_path (files req) coverImages)
    /\ w_trace w3 = (w_trace (before_upload req w) ++ l)%list
    /\ List.filter is_repository_call l = []
    /\ List.filter is_upload_call l
       = (upload_call_of (first_path (files req) avatar)
            ++ upload_call_of (first_path (files req) coverImages))%list.
Proof.
  destruct (uploadOnCloudinary_effect (first_path (files req) avatar) (before_upload req w))
    as (a & w2 & l1 & E1 & U1 & C1 & N1 & _ & F1 & T1 & R1 & P1).
  destruct (uploadOnCloudinary_effect (first_path (files req) coverImages) w2)
    as (c & w3 & l2 & E2 & U2 & C2 & N2 & _ & F2 & T2 & R2 & P2).
  exists a, c, w2, w3, (l1 ++ l2)%list.
  cbn [before_upload after_log log_event w_users w_clock w_entropy w_files] in U1, C1, N1, F1.
  repeat apply conj; try assumption; try congruence.
  - rewrite T2, T1, app_assoc. reflexivity.
  - rewrite List.filter_app, R1, R2. reflexivity.
  - rewrite List.filter_app, P1, P2. reflexivity.
Qed.


End HandlerEffects.

Section HandlerRuns.
Context {U : Unicode} {B : Bcrypt}.
Import UserModel.

(** What the field check has looked at when it lets a request through. *)
Lemma field_passes req f :
  some_blank (fields_of req) = Ok false ->
  In f (fields_of req) ->
  is_other f = false /\ blank_string f = false.
Proof.
  intros H Hin. apply some_blank_false in H. rewrite List.Forall_forall in H.
  now apply H.
Qed.

Lemma username_in_fields req : In (body_field username req) (fields_of req).
Proof. cbn. tauto. Qed.

(** A request stopped ahead of the uploads: by a TypeError of the field
    check, or by one of the three checks. *)
Lemma registerUser_rejected_early req w :
  reaches_uploads req w = false ->
  exists e w' l,
    registerUser req w = (Throw e, w')
    /\ ((field_check req = None /\ exists msg, e = ExTypeError msg)
        \/ e = api_error 400 "All fields are required"
        \/ e = api_error 409 "User already exists"
        \/ e = api_error 400 "Avatar is required")
    /\ w_users w' = w_users w /\ w_files w' = w_files w
    /\ w_trace w' = (w_trace w ++ l)%list
    /\ List.filter is_upload_call l = [].
Proof.
  unfold reaches_uploads. intros H.
  destruct (field_check req) as [[|]|] eqn:Hfc.
  - rewrite (registerUser_blank req w Hfc).
    exists (api_error 400 "All fields are required"), (after_log req w),
      [EvConsole "email:" (body_field email req)].
    split; [reflexivity|]. split; [right; left; reflexivity|].
    repeat apply conj; reflexivity.
  - apply field_check_passes in Hfc as [[b Hbody] Hb].
    rewrite registerUser_eq, Hbody, Hb.
    destruct (existing req w).
    { exists (api_error 409 "User already exists"), (before_upload req w),
        [EvConsole "email:" (body_field email req);
         EvFindOne (as_string (body_field email req))
                   (as_string (body_field username req))].
      split; [reflexivity|]. split; [right; right; left; reflexivity|].
      cbn [before_upload after_log log_event w_trace w_users w_files].
      rewrite <- app_assoc. repeat apply conj; reflexivity. }
    cbn [negb andb] in H. rewrite H. cbn [negb].
    exists (api_error 400 "Avatar is required"), (before_upload req w),
      [EvConsole "email:" (body_field email req);
       EvFindOne (as_string (body_field email req))
                 (as_string (body_field username req))].
    split; [reflexivity|]. split; [right; right; right; reflexivity|].
    cbn [before_upload after_log log_event w_trace w_users w_files].
    rewrite <- app_assoc. repeat apply conj; reflexivity.
  - destruct (registerUser_TypeError_early req w Hfc) as (msg & ->).
    destruct (body req) as [b|].
    + exists (ExTypeError msg), (after_log req w),
        [EvConsole "email:" (body_field email req)].
      split; [reflexivity|]. split; [left; eauto|].
      repeat apply conj; reflexivity.
    + exists (ExTypeError msg), w, [].
      split; [reflexivity|]. split; [left; eauto|].
      repeat apply conj; try reflexivity. symmetry. apply app_nil_r.
Qed.

(** A request that gets to the uploads: both are made, then the handler goes
    on according to the avatar result, the username and [User.create]. *)
Lemma registerUser_after_uploads req w :
  reaches_uploads req w = true ->
  exists a c w3 l,
    w_users w3 = w_users w /\ w_clock w3 = w_clock w /\ w_entropy w3 = w_entropy w
    /\ w_files w3 = (w_files w ∖ path_set (first_path (files req) avatar))
                      ∖ path_set (first_path (files req) coverImages)
    /\ w_trace w3 = (w_trace (before_upload req w) ++ l)%list
    /\ List.filter is_repository_call l = []
    /\ List.filter is_upload_call l
       = (upload_call_of (first_path (files req) avatar)
            ++ upload_call_of (first_path (files req) coverImages))%list
    /\ fst (uploadOnCloudinary (first_path (files req) avatar) (before_upload req w)) = Ok a
    /\ existing req w = None
    /\ field_check req = Some false
    /\ registerUser req w =
         match a with
         | None => (Throw (api_error 400 "Avatar upload failed"), w3)
         | Some av =>
             match body_field username req with
             | FString u =>
                 match create (payload_of req u av c) w3 with
                 | (Throw e, w4) => (Throw e, w4)
                 | (Ok d, w4) =>
                     (Ok (created_response (sanitize d)),
                      log_event (EvFindById (fresh_id (w_users w))) w4)
                 end
             | other => (Throw (toLowerCase_error other), w3)
             end
         end.
Proof.
  unfold reaches_uploads. intros H.
  apply andb_true_iff in H as [H Ht]. apply andb_true_iff in H as [Hb Hex].
  destruct (field_check req) as [[|]|] eqn:Hfc; try discriminate Hb.
  destruct (existing req w) eqn:Hex'; [discriminate Hex|].
  destruct (uploads_stage req w)
    as (a & c & w2 & w3 & l & E1 & E2 & U0 & C & N & F & T & R & P).
  exists a, c, w3, l. repeat apply conj; try assumption; try reflexivity.
  - rewrite E1. reflexivity.
  - apply field_check_passes in Hfc as [[b Hbody] Hsb].
    rewrite registerUser_eq, Hbody, Hsb, Hex', Ht. cbn [negb]. rewrite E1, E2.
    destruct a as [av|]; [|reflexivity].
    destruct (body_field username req) as [| |u|]; try reflexivity.
    destruct (create (payload_of req u av c) w3) as [[d|e] w4] eqn:Hc; [|reflexivity].
    rewrite (findById_after_create _ _ _ _ Hc), U0. reflexivity.
Qed.

(** The users collection after a run. *)
Lemma registerUser_users req w :
  match registerUser req w with
  | (Ok resp, w') =>
      exists stored, w_users w' = (w_users w ++ [stored])%list
                     /\ resp = created_response (sanitize stored)
  | (Throw _, w') => w_users w' = w_users w
  end.
Proof.
  destruct (reaches_uploads req w) eqn:Hr.
  - destruct (registerUser_after_uploads req w Hr)
      as (a & c & w3 & l & U0 & _ & _ & _ & _ & _ & _ & _ & _ & _ & ->).
    destruct a as [av|]; [|exact U0].
    destruct (body_field username req) as [| |u|]; try exact U0.
    destruct (create (payload_of req u av c) w3) as [[d|e] w4] eqn:Hc.
    + apply create_ok_inv in Hc as (_ & _ & _ & _ & _ & _ & _ & ->).
      exists d. cbn [log_event set_users set_entropy w_users]. rewrite U0.
      split; reflexivity.
    + apply create_throw_inv in Hc as (U4 & _). congruence.
  - destruct (registerUser_rejected_early req w Hr)
      as (e & w' & l & -> & _ & U0 & _). exact U0.
Qed.

(** An [apiError] that comes out of the handler has status 400 or 409. *)
Lemma registerUser_api_errors req w e w' :
  registerUser req w = (Throw (ExApi e), w') ->
  apiError.statusCode e = 400%Z \/ apiError.statusCode e = 409%Z.
Proof.
  destruct (reaches_uploads req w) eqn:Hr.
  - destruct (registerUser_after_uploads req w Hr)
      as (a & c & w3 & l & _ & _ & _ & _ & _ & _ & _ & _ & _ & _ & ->).
    destruct a as [av|]; [|intros [= <- _]; left; reflexivity].
    destruct (body_field username req) as [| |u|]; try discriminate.
    destruct (create (payload_of req u av c) w3) as [[d|e'] w4] eqn:Hc; [discriminate|].
    apply create_throw_inv in Hc as (_ & _ & _ & [(k & bad & -> & _) | (pw & -> & _)]);
      discriminate.
  - destruct (registerUser_rejected_early req w Hr)
      as (e' & w'' & l & -> & [[_ [msg ->]] | [-> | [-> | ->]]] & _);
      intros [= <- _]; cbn; tauto.
Qed.

(** X1. The TypeErrors of the handler. Without a body the destructuring
    throws and nothing at all has happened. With a body, a value without a
    [trim] method that no blank string precedes makes the field check throw
    right after the console line. And a request that got to the uploads with
    a username that is [undefined] or [null] throws on
    [username.toLowerCase()] once the avatar is uploaded: the temporary files
    are gone and nothing is stored. *)
Theorem registerUser_type_errors req w :
  (body req = None ->
   exists msg, registerUser req w = (Throw (ExTypeError msg), w))
  /\ (forall before after,
        fields_of req = (before ++ FOther :: after)%list ->
        Forall (fun f => is_other f = false /\ blank_string f = false) before ->
        registerUser req w
        = (Throw (ExTypeError "field?.trim is not a function"), after_log req w))
  /\ (forall av,
        reaches_uploads req w = true ->
        fst (uploadOnCloudinary (first_path (files req) avatar) (before_upload req w))
          = Ok (Some av) ->
        as_string (body_field username req) = None ->
        exists msg w',
          registerUser req w = (Throw (ExTypeError msg), w')
          /\ w_users w' = w_users w
          /\ w_files w' = (w_files w ∖ path_set (first_path (files req) avatar))
                            ∖ path_set (first_path (files req) coverImages)).
Proof.
  split; [|split].
  - intros Hb. rewrite registerUser_eq, Hb. eauto.
  - intros before after Hl Hbefore. rewrite registerUser_eq.
    assert (Hbody : exists b, body req = Some b).
    { unfold fields_of, body_field in Hl. destruct (body req) as [b|]; [eauto|].
      exfalso. clear -Hl.
      assert (Hin : In FOther [FUndefined; FUndefined; FUndefined; FUndefined]).
      { rewrite Hl. apply in_elt. }
      cbn in Hin. intuition discriminate. }
    destruct Hbody as [b ->].
    assert (Hs : some_blank (fields_of req)
                 = Throw (ExTypeError "field?.trim is not a function")).
    { rewrite Hl. clear Hl. induction Hbefore as [|f l [Ho Hb] _ IH]; [reflexivity|].
      cbn [app some_blank]. destruct f as [| |s|]; cbn [is_blank];
        try exact IH; [|discriminate Ho].
      cbn in Hb. rewrite Hb. exact IH. }
    rewrite Hs. reflexivity.
  - intros av Hr Hav Hu.
    destruct (registerUser_after_uploads req w Hr)
      as (a & c & w3 & l & U0 & _ & _ & F & _ & _ & _ & Ha & _ & Hfc & ->).
    rewrite Hav in Ha. injection Ha as <-.
    destruct (body_field username req) as [| |u|] eqn:E; try discriminate Hu.
    + eexists _, w3. split; [reflexivity|]. split; assumption.
    + eexists _, w3. split; [reflexivity|]. split; assumption.
    + exfalso. apply field_check_passes in Hfc as [_ Hsb].
      destruct (field_passes req _ Hsb (username_in_fields req)) as [Ho _].
      rewrite E in Ho. discriminate Ho.
Qed.

(** X2. The users collection grows by exactly one record when the handler
    answers 201, and is left as it was whenever the handler throws, also when
    it throws after the uploads. *)
Theorem registerUser_persists_iff_created req w :
  match registerUser req w with
  | (Ok resp, w') =>
      exists stored, w_users w' = (w_users w ++ [stored])%list
                     /\ resp = created_response (sanitize stored)
  | (Throw _, w') => w_users w' = w_users w
  end.
Proof. apply registerUser_users. Qed.

(** X3. The local files after a run: a request that gets to the uploads
    loses the avatar file and the cover file (when it has one), whatever
    happens next; a request rejected before the uploads keeps every file,
    its own temporary uploads included. *)
Theorem registerUser_local_files req w :
  w_files (snd (registerUser req w)) =
    if reaches_uploads req w
    then (w_files w ∖ path_set (first_path (files req) avatar))
           ∖ path_set (first_path (files req) coverImages)
    else w_files w.
Proof.
  destruct (reaches_uploads req w) eqn:Hr.
  - destruct (registerUser_after_uploads req w Hr)
      as (a & c & w3 & l & _ & _ & _ & F & _ & _ & _ & _ & _ & _ & ->).
    destruct a as [av|]; [|exact F].
    destruct (body_field username req) as [| |u|]; try exact F.
    destruct (create (payload_of req u av c) w3) as [[d|e] w4] eqn:Hc.
    + apply create_ok_inv in Hc as (_ & _ & _ & _ & _ & _ & _ & ->). exact F.
    + apply create_throw_inv in Hc as (_ & F4 & _). cbn [snd]. congruence.
  - destruct (registerUser_rejected_early req w Hr)
      as (e & w' & l & -> & _ & _ & F & _). exact F.
Qed.

(** X4. The remote upload calls of a run: none when the request is rejected
    before the uploads; otherwise one for the avatar followed by one for the
    cover image when it has a path, and the cover upload is made even when the
    avatar upload has failed. *)
Theorem registerUser_upload_calls req w :
  exists new_events,
    w_trace (snd (registerUser req w)) = (w_trace w ++ new_events)%list
    /\ List.filter is_upload_call new_events =
         if reaches_uploads req w
         then (upload_call_of (first_path (files req) avatar)
                 ++ upload_call_of (first_path (files req) coverImages))%list
         else [].
Proof.
  destruct (reaches_uploads req w) eqn:Hr.
  - destruct (registerUser_after_uploads req w Hr)
      as (a & c & w3 & l & _ & _ & _ & _ & T & _ & P & _ & _ & _ & ->).
    cbn [before_upload after_log log_event w_trace] in T.
    rewrite <- !app_assoc in T. cbn [app] in T.
    assert (P' : List.filter is_upload_call
                   (EvConsole "email:" (body_field email req)
                    :: EvFindOne (as_string (body_field email req))
                                 (as_string (body_field username req)) :: l)
                 = (upload_call_of (first_path (files req) avatar)
                      ++ upload_call_of (first_path (files req) coverImages))%list)
      by exact P.
    destruct a as [av|]; [|eexists; split; [exact T|exact P']].
    destruct (body_field username req) as [| |u|];
      try (eexists; split; [exact T|exact P']).
    destruct (create (payload_of req u av c) w3) as [[d|e] w4] eqn:Hc.
    + apply create_ok_inv in Hc as (_ & _ & _ & _ & _ & _ & _ & ->).
      cbn [snd log_event set_users set_entropy w_trace]. rewrite T.
      eexists. rewrite <- !app_assoc. split; [reflexivity|].
      cbn [app]. rewrite <- P'.
      cbn [List.filter is_upload_call]. rewrite !List.filter_app.
      cbn [List.filter is_upload_call]. rewrite app_nil_r. reflexivity.
    + apply create_throw_inv in Hc as (_ & _ & (l4 & T4 & P4) & _).
      cbn [snd]. rewrite T4, T. eexists. rewrite <- !app_assoc. split; [reflexivity|].
      cbn [app]. rewrite <- P'.
      cbn [List.filter is_upload_call]. rewrite !List.filter_app.
      cbn [List.filter is_upload_call]. rewrite P4, app_nil_r. reflexivity.
  - destruct (registerUser_rejected_early req w Hr)
      as (e & w' & l & -> & _ & _ & _ & T & P). eauto.
Qed.

End HandlerRuns.

Section AfterTheUploads.
Context {U : Unicode} {B : Bcrypt}.
Import UserModel.







End AfterTheUploads.

Section CollectionInvariants.
Context {U : Unicode} {B : Bcrypt}.
Import UserModel.

Lemma persisted_get_string p id now hash :
  let d := persisted p id now hash in
  get_string d "username" = Some (cast "username" (cp_username p))
  /\ get_string d "email" = option_map (cast "email") (cp_email p)
  /\ get_string d "fullName" = option_map (cast "fullName") (cp_fullName p).
Proof.
  destruct p as [[f|] [e|] u [pw|] a c]; repeat apply conj; reflexivity.
Qed.

(** What the setters of a trimmed, lowercased path return is trimmed and in
    lower case. *)
Lemma trimmed_lowercased (L : UnicodeLaws U) s :
  trimmed (toLowerCase (trim s)) && lowercased (toLowerCase (trim s)) = true.
Proof.
  unfold trimmed, lowercased.
  rewrite trim_lower, trim_idem, toLowerCase_idem, !jseqb_refl. reflexivity.
Qed.

Lemma persisted_normalized (L : UnicodeLaws U) p id now hash :
  normalized (persisted p id now hash) = true.
Proof.
  unfold normalized.
  destruct (persisted_get_string p id now hash) as (-> & -> & ->).
  rewrite cast_username, trimmed_lowercased by exact L.
  destruct (cp_email p), (cp_fullName p); cbn [option_map];
    rewrite ?cast_email, ?cast_fullName, ?trimmed_lowercased by exact L;
    unfold trimmed; rewrite ?trim_idem, ?jseqb_refl; reflexivity.
Qed.

(** X7. Every record the handler stores has its username and email trimmed
    and in lower case and its full name trimmed, and a collection of such
    records stays one. *)
Theorem registerUser_keeps_normalized (L : UnicodeLaws U) req w :
  forallb normalized (w_users w) = true ->
  forallb normalized (w_users (snd (registerUser req w))) = true.
Proof.
  intros Hok. pose proof (registerUser_users req w) as Hu.
  destruct (registerUser req w) as [[resp|err] w'] eqn:E; cbn [snd].
  - apply registerUser_stored in E
      as (f & e & pw & u & av & cov & w2 & w3 & d & _ & _ & _ & _ & _ & _ & _ & Hd & Hus).
    rewrite Hus, forallb_app, Hok. cbn [forallb andb].
    rewrite Hd, persisted_normalized by exact L. reflexivity.
  - congruence.
Qed.

End CollectionInvariants.

Section RoundTripAndOrder.
Context {U : Unicode} {B : Bcrypt}.
Import UserModel.

(** X8. Registration and the duplication query round-trip, whatever the case
    and the padding: after a successful registration, in any world that still
    holds the stored record, a request that passes the field check and whose
    email or username equals the registered one up to surrounding white space
    and letter case is answered 409. *)
Theorem registered_then_conflict (L : UnicodeLaws U) req1 w resp w1 req2 w2 :
  registerUser req1 w = (Ok resp, w1) ->
  (forall d, In d (w_users w1) -> In d (w_users w2)) ->
  field_check req2 = Some false ->
  option_map (fun s => toLowerCase (trim s)) (as_string (body_field email req2))
    = option_map (fun s => toLowerCase (trim s)) (as_string (body_field email req1))
  \/ option_map (fun s => toLowerCase (trim s)) (as_string (body_field username req2))
     = option_map (fun s => toLowerCase (trim s)) (as_string (body_field username req1)) ->
  registerUser req2 w2
  = (Throw (api_error 409 "User already exists"), before_upload req2 w2).
Proof.
  intros H1 Hsub Hfc Heq.
  apply registerUser_stored_fields in H1
    as (f & e & pw & u & av & cov & wa & wb & d
        & _ & He & _ & Hu & _ & _ & _ & Hlast & _ & Lu & _ & Le & _).
  rewrite trim_lower, toLowerCase_idem in Lu.
  assert (Hin : In d (w_users w2)).
  { apply Hsub. apply list_elem_of_In, last_Some_elem_of. exact Hlast. }
  assert (Hm : (matches "email" (as_string (body_field email req2)) d
                || matches "username" (as_string (body_field username req2)) d) = true).
  { rewrite He, Hu in Heq. cbn [as_string option_map] in Heq.
    unfold matches, get_string. rewrite Le, Lu.
    apply orb_true_iff. destruct Heq as [Heq|Heq]; [left|right].
    - destruct (as_string (body_field email req2)) as [e2|]; [|discriminate Heq].
      cbn [option_map] in Heq. injection Heq as Heq.
      rewrite cast_email, Heq. apply jseqb_refl.
    - destruct (as_string (body_field username req2)) as [u2|]; [|discriminate Heq].
      cbn [option_map] in Heq. injection Heq as Heq.
      rewrite cast_username, Heq. apply jseqb_refl. }
  destruct (existing_Some req2 w2 d Hin Hm) as (x & Hx).
  apply field_check_passes in Hfc as [[b Hbody] Hb].
  rewrite registerUser_eq, Hbody, Hb, Hx. reflexivity.
Qed.

(** X9. The calls of a successful run, in order: the console line and the
    duplication query, then the events of the two uploads, and only then the
    [create] call, the insert and the re-fetch by the new id; the uploads
    contain no repository call. *)
Theorem registerUser_call_order req w resp w' :
  registerUser req w = (Ok resp, w') ->
  exists u av cov id upload_events,
    w_trace w' =
      (w_trace w
         ++ EvConsole "email:" (body_field email req)
         :: EvFindOne (as_string (body_field email req))
                      (as_string (body_field username req))
         :: upload_events
         ++ [EvCreate (payload_of req u av cov); EvInsert id; EvFindById id])%list
    /\ List.filter is_repository_call upload_events = []
    /\ List.filter is_upload_call upload_events
       = (upload_call_of (first_path (files req) avatar)
            ++ upload_call_of (first_path (files req) coverImages))%list.
Proof.
  intros H.
  assert (Hr : reaches_uploads req w = true).
  { destruct (reaches_uploads req w) eqn:Hr; [reflexivity|].
    destruct (registerUser_rejected_early req w Hr) as (e & w0 & l & E & _).
    rewrite E in H. discriminate H. }
  destruct (registerUser_after_uploads req w Hr)
    as (a & c & w3 & l & U0 & _ & _ & _ & T & R & P & _ & _ & _ & E).
  rewrite E in H.
  destruct a as [av|]; [|discriminate H].
  destruct (body_field username req) as [| |u|] eqn:Hu; try discriminate H.
  destruct (create (payload_of req u av c) w3) as [[d|e] w4] eqn:Hc; [|discriminate H].
  injection H as _ <-.
  apply create_ok_inv in Hc as (_ & _ & _ & _ & _ & _ & _ & ->).
  exists u, av, c, (fresh_id (w_users w3)), l.
  cbn [log_event set_users set_entropy w_trace]. rewrite T, U0.
  cbn [before_upload after_log log_event w_trace].
  rewrite <- !app_assoc, ?Hu. repeat apply conj; [reflexivity|exact R|exact P].
Qed.

End RoundTripAndOrder.

(** X10. The second copy of [uploadOnCloudinary] never uploads: on no input
    does it reach the remote call or return a descriptor. With a local file at
    the path it deletes the file and returns null; otherwise it throws and
    leaves the world as it was. *)
Theorem Draft_uploadOnCloudinary_never_reaches_cloudinary lp w :
  (forall r, fst (Draft.uploadOnCloudinary lp w) <> Ok (Some r))
  /\ (exists l, w_trace (snd (Draft.uploadOnCloudinary lp w)) = (w_trace w ++ l)%list
                /\ List.filter is_upload_call l = [])
  /\ match lp with
     | Some p =>
         if bool_decide (p ∈ w_files w)
         then fst (Draft.uploadOnCloudinary lp w) = Ok None
              /\ w_files (snd (Draft.uploadOnCloudinary lp w)) = w_files w ∖ {[p]}
         else exists e, Draft.uploadOnCloudinary lp w = (Throw e, w)
     | None => exists e, Draft.uploadOnCloudinary lp w = (Throw e, w)
     end.
Proof.
  unfold Draft.uploadOnCloudinary, try_catch, bind, Draft.undeclared, throw,
    fs_unlinkSync, console_log, ret.
  destruct lp as [p|].
  - destruct (bool_decide (p ∈ w_files w)) eqn:Hin.
    + split; [discriminate|]. split.
      * eexists. cbn [snd log_event set_files w_trace]. rewrite <- !app_assoc.
        split; reflexivity.
      * split; reflexivity.
    + split; [discriminate|]. split.
      * exists []. cbn [snd]. rewrite app_nil_r. split; reflexivity.
      * eexists. reflexivity.
  - split; [discriminate|]. split.
    + exists []. cbn [snd]. rewrite app_nil_r. split; reflexivity.
    + eexists. reflexivity.
Qed.

(** X11. The route handler [asyncHandler(registerUser)]: either a 201
    response has been sent and exactly one record was added, or the error was
    passed to [next], nothing was added, and an [apiError] among the errors
    has status 400 or 409 (never 500). *)
Theorem asyncHandler_registerUser {U : Unicode} {B : Bcrypt} req w :
  match asyncHandler registerUser req w with
  | (Responded r, w') =>
      status r = 201%Z
      /\ exists stored, w_users w' = (w_users w ++ [stored])%list
  | (Forwarded err, w') =>
      w_users w' = w_users w
      /\ forall e, err = ExApi e ->
                   apiError.statusCode e = 400%Z \/ apiError.statusCode e = 409%Z
  end.
Proof.
  unfold asyncHandler.
  pose proof (registerUser_users req w) as Hu.
  destruct (registerUser req w) as [[resp|err] w'] eqn:E.
  - destruct Hu as (stored & Hu & ->). split; [reflexivity|eauto].
  - split; [exact Hu|]. intros e ->.
    exact (registerUser_api_errors req w e w' E).
Qed.

(** ** The token methods *)

Section Tokens.
Context {U : Unicode} {B : Bcrypt} {J : Jwt}.
Import UserModel UserMethods.

(** The four claims of a token, read from a record that has them. *)
Lemma token_claims_lookup (this : doc) (i e u f : jsval) :
  this !! "_id" = Some i -> this !! "email" = Some e ->
  this !! "username" = Some u -> this !! "fullName" = Some f ->
  let claims := object_literal [ ("_id", this !! "_id");
                                 ("email", this !! "email");
                                 ("username", this !! "username");
                                 ("fullName", this !! "fullName") ] in
  claims !! "_id" = Some i /\ claims !! "email" = Some e
  /\ claims !! "username" = Some u /\ claims !! "fullName" = Some f
  /\ forall k, k <> "_id" -> k <> "email" -> k <> "username" -> k <> "fullName" ->
               claims !! k = None.
Proof.
  intros -> -> -> ->. cbn [object_literal fold_right fst snd].
  repeat apply conj; try reflexivity.
  intros k H1 H2 H3 H4.
  rewrite !lookup_insert_ne by congruence. apply lookup_empty.
Qed.

(** X12. For the record stored by a successful registration, the access
    token and the refresh token sign one and the same payload, with their own
    secret and expiry taken from the environment; the payload holds the
    record's id, its stored (trimmed, lowercased) email and username and its
    trimmed full name, and no other key, so neither the password hash nor a
    refresh token. *)
Theorem tokens_carry_identity_claims_only (L : UnicodeLaws U) req w resp w'
    (env : gmap string string) :
  registerUser req w = (Ok resp, w') ->
  exists stored claims id f e u,
    last (w_users w') = Some stored
    /\ body_field fullName req = FString f /\ body_field email req = FString e
    /\ body_field username req = FString u
    /\ generateAccessToken stored env
       = jwt_sign claims (env !! "ACCESS_TOKEN_SECRET") (env !! "ACCESS_TOKEN_EXPIRY")
    /\ generateRefreshToken stored env
       = jwt_sign claims (env !! "REFRESH_TOKEN_SECRET") (env !! "REFRESH_TOKEN_EXPIRY")
    /\ claims !! "_id" = Some (VObjectId id)
    /\ claims !! "email" = Some (VStr (toLowerCase (trim e)))
    /\ claims !! "username" = Some (VStr (toLowerCase (trim u)))
    /\ claims !! "fullName" = Some (VStr (trim f))
    /\ (forall k, k <> "_id" -> k <> "email" -> k <> "username" -> k <> "fullName" ->
                  claims !! k = None)
    /\ claims !! "password" = None /\ claims !! "refreshTokens" = None.
Proof.
  intros H.
  apply registerUser_stored_fields in H
    as (f & e & pw & u & av & cov & w2 & w3 & stored
        & Hf & He & _ & Hu & _ & _ & _ & Hlast & Li & Lu & Lf & Le & _).
  rewrite trim_lower, toLowerCase_idem in Lu.
  destruct (token_claims_lookup stored _ _ _ _ Li Le Lu Lf) as (C1 & C2 & C3 & C4 & C5).
  eexists stored, _, (fresh_id (w_users w)), f, e, u.
  repeat apply conj; try eassumption; try reflexivity;
    apply C5; discriminate.
Qed.

End Tokens.

(** X13. [uploadOnCloudinary] does not retry and stays in its lane: for a
    non-empty path it makes exactly one remote call, also when that call
    fails, for a null or empty path none; it makes no repository call, leaves
    the users collection alone, and of the local files it removes the one at
    its path and no other. *)
Theorem uploadOnCloudinary_single_call_and_frame lp w :
  exists l,
    w_trace (snd (uploadOnCloudinary lp w)) = (w_trace w ++ l)%list
    /\ List.filter is_upload_call l = upload_call_of lp
    /\ List.filter is_repository_call l = []
    /\ w_users (snd (uploadOnCloudinary lp w)) = w_users w
    /\ w_files (snd (uploadOnCloudinary lp w)) = w_files w ∖ path_set lp.
Proof.
  destruct (uploadOnCloudinary_effect lp w)
    as (r & w' & l & -> & U0 & _ & _ & _ & F & T & R & P).
  exists l. cbn [snd]. repeat apply conj; assumption.
Qed.

(** ** The further properties on concrete inputs *)

(** A username with a capital letter outside ASCII is stored in small
    letters. *)
Lemma emile_registers :
  run_registerUser emile_request alice_world
  = (Ok (created_response (sanitize emile_stored)), emile_registered)
  /\ emile_stored !! "username" = Some (VStr (0xE9%N :: js "mile")).
Proof. split; by_eval. Qed.

Lemma registerUser_type_errors_witness :
  (exists msg, run_registerUser no_body_request alice_world
               = (Throw (ExTypeError msg), alice_world))
  /\ run_registerUser number_name_request alice_world
     = (Throw (ExTypeError "field?.trim is not a function"),
        after_log number_name_request alice_world)
  /\ (exists msg w',
        run_registerUser no_username_request alice_world = (Throw (ExTypeError msg), w')
        /\ w_users w' = w_users alice_world
        /\ w_files w'
           = (w_files alice_world
                ∖ path_set (first_path (files no_username_request) avatar))
               ∖ path_set (first_path (files no_username_request) coverImages)).
Proof.
  split; [|split].
  - apply (proj1 (registerUser_type_errors (U := latin1_case) (B := toy_bcrypt)
                    no_body_request alice_world)).
    reflexivity.
  - apply (proj1 (proj2 (registerUser_type_errors (U := latin1_case) (B := toy_bcrypt)
                           number_name_request alice_world))
             [] [FString []; FString (js "secret"); FString (js "Alice")]).
    + reflexivity.
    + constructor.
  - apply (proj2 (proj2 (registerUser_type_errors (U := latin1_case) (B := toy_bcrypt)
                           no_username_request alice_world))
             alice_descriptor); by_eval.
Defined.


Lemma registerUser_keeps_normalized_witness :
  forallb (normalized (U := latin1_case)) (w_users alice_registered) = true
  /\ forallb (normalized (U := latin1_case))
       (w_users (snd (run_registerUser emile_request alice_registered))) = true.
Proof.
  split; [by_eval|].
  apply (registerUser_keeps_normalized (U := latin1_case) (B := toy_bcrypt)
           latin1_case_laws emile_request alice_registered).
  by_eval.
Defined.

Lemma registered_then_conflict_witness :
  run_registerUser emile_request alice_world
  = (Ok (created_response (sanitize emile_stored)), emile_registered)
  /\ run_registerUser small_emile_request emile_registered
     = (Throw (api_error 409 "User already exists"),
        before_upload small_emile_request emile_registered).
Proof.
  split; [by_eval|].
  apply (registered_then_conflict (U := latin1_case) (B := toy_bcrypt) latin1_case_laws
           emile_request alice_world (created_response (sanitize emile_stored))
           emile_registered small_emile_request emile_registered).
  - by_eval.
  - intros d H. exact H.
  - by_eval.
  - right. by_eval.
Defined.

Lemma registerUser_call_order_witness :
  exists u av cov id upload_events,
    w_trace alice_registered =
      (w_trace alice_world
         ++ EvConsole "email:" (body_field email alice_request)
         :: EvFindOne (as_string (body_field email alice_request))
                      (as_string (body_field username alice_request))
         :: upload_events
         ++ [EvCreate (payload_of (U := latin1_case) alice_request u av cov);
             EvInsert id; EvFindById id])%list
    /\ List.filter is_repository_call upload_events = []
    /\ List.filter is_upload_call upload_events
       = (upload_call_of (first_path (files alice_request) avatar)
            ++ upload_call_of (first_path (files alice_request) coverImages))%list.
Proof.
  apply (registerUser_call_order (U := latin1_case) (B := toy_bcrypt)
           alice_request alice_world alice_response alice_registered).
  by_eval.
Defined.

Lemma Draft_uploadOnCloudinary_never_reaches_cloudinary_witness :
  fst (Draft.uploadOnCloudinary (Some (js "/tmp/a.png")) alice_world) = Ok None
  /\ w_files (snd (Draft.uploadOnCloudinary (Some (js "/tmp/a.png")) alice_world))
     = w_files alice_world ∖ {[js "/tmp/a.png"]}.
Proof.
  exact (proj2 (proj2 (Draft_uploadOnCloudinary_never_reaches_cloudinary
                         (Some (js "/tmp/a.png")) alice_world))).
Defined.

Lemma asyncHandler_registerUser_witness :
  w_users (snd (asyncHandler run_registerUser blank_name_request alice_world))
  = w_users alice_world
  /\ forall e,
       fst (run_registerUser blank_name_request alice_world) = Throw (ExApi e) ->
       apiError.statusCode e = 400%Z \/ apiError.statusCode e = 409%Z.
Proof.
  pose proof (asyncHandler_registerUser (U := latin1_case) (B := toy_bcrypt)
                blank_name_request alice_world) as H.
  split.
  - reflexivity.
  - intros e He. destruct H as [_ H]. apply H.
    vm_compute in He. injection He as <-. reflexivity.
Defined.

Lemma tokens_carry_identity_claims_only_witness :
  exists stored claims id f e u,
    last (w_users alice_registered) = Some stored
    /\ body_field fullName alice_request = FString f
    /\ body_field email alice_request = FString e
    /\ body_field username alice_request = FString u
    /\ UserMethods.generateAccessToken (J := toy_jwt) stored example_env
       = jwt_sign (Jwt := toy_jwt) claims (example_env !! "ACCESS_TOKEN_SECRET")
           (example_env !! "ACCESS_TOKEN_EXPIRY")
    /\ UserMethods.generateRefreshToken (J := toy_jwt) stored example_env
       = jwt_sign (Jwt := toy_jwt) claims (example_env !! "REFRESH_TOKEN_SECRET")
           (example_env !! "REFRESH_TOKEN_EXPIRY")
    /\ claims !! "_id" = Some (VObjectId id)
    /\ claims !! "email" = Some (VStr (toLowerCase (Unicode := latin1_case) (trim e)))
    /\ claims !! "username" = Some (VStr (toLowerCase (Unicode := latin1_case) (trim u)))
    /\ claims !! "fullName" = Some (VStr (trim f))
    /\ (forall k, k <> "_id" -> k <> "email" -> k <> "username" -> k <> "fullName" ->
                  claims !! k = None)
    /\ claims !! "password" = None /\ claims !! "refreshTokens" = None.
Proof.
  apply (tokens_carry_identity_claims_only (U := latin1_case) (B := toy_bcrypt)
           (J := toy_jwt) latin1_case_laws
           alice_request alice_world alice_response alice_registered example_env).
  by_eval.
Defined.

(** The handler on the request with two files in a world whose remote storage
    only takes the cover image: the avatar upload fails, the cover image is
    uploaded all the same, both local files are gone and nothing is stored. *)
Lemma cover_uploaded_although_avatar_failed :
  exists w',
    run_registerUser two_files_request two_files_world
    = (Throw (api_error 400 "Avatar upload failed"), w')
    /\ List.filter is_upload_call (w_trace w')
       = [EvCloudUpload (js "/tmp/a.png"); EvCloudUpload (js "/tmp/c.png")]
    /\ In (EvConsole "file uploaded to cloudinary successfully"
             (FString (js "http://cdn/c.png")))
          (w_trace w')
    /\ w_files w' = ∅ /\ w_users w' = [].
Proof.
  eexists. split; [vm_compute; reflexivity|].
  split; [reflexivity|]. split; [cbn; tauto|]. split; reflexivity.
Qed.
